(** * Koku identity and access serializers

    A shallow embedding of [koku/api/iam/serializers.py] and of the migration
    [koku/api/migrations/0010_auto_20180523_1540.py], with the properties the
    specification states about them.

    Conventions.  Python [str] values are Rocq strings whose characters are
    the code points U+0000..U+00FF.  Dictionaries are finite maps.  Code that
    touches the database, the mailer or the entropy source is written in a
    state-and-exception monad over an explicit [world]. *)

From Stdlib Require Import Ascii String.
From stdpp Require Import gmap strings list pretty.
From Equations Require Import Equations.

Set Warnings "-register-all".
Set Default Proof Using "Type".

Local Open Scope string_scope.
Local Open Scope list_scope.
Local Open Scope nat_scope.

(** ** Python strings *)

(** A [str] is modelled by a [string] of code points U+0000..U+00FF, one
    [ascii] each, and the functions below are the Python ones on such
    strings.  On them [str.lower] works character by character; beyond
    U+00FF it does not (U+0130 lowers to two code points, the capital sigma
    according to its position), so what is stated of [lower] and of
    [_create_schema_name] is stated of names within that range. *)

Module PyStr.

Definition code (c : ascii) : N := N_of_ascii c.

Definition between (lo hi : N) (c : ascii) : bool :=
  ((lo <=? code c) && (code c <=? hi))%N.

(** [string.digits], [string.ascii_uppercase], [string.ascii_lowercase]. *)
Definition digits : string := "0123456789".
Definition ascii_uppercase : string := "ABCDEFGHIJKLMNOPQRSTUVWXYZ".
Definition ascii_lowercase : string := "abcdefghijklmnopqrstuvwxyz".

(** The alphanumeric code points below U+0100 (what [str.isalnum] accepts):
    ASCII digits and letters, the ordinal indicators, superscript digits,
    micro sign, vulgar fractions and the Latin-1 letters. *)
Definition is_alnum (c : ascii) : bool :=
  between 48 57 c || between 65 90 c || between 97 122 c
  || bool_decide (code c ∈ [170; 178; 179; 181; 185; 186; 188; 189; 190]%N)
  || between 192 214 c || between 216 246 c || between 248 255 c.

(** [\w] of the [re] module on [str] patterns: alphanumeric or underscore. *)
Definition is_word (c : ascii) : bool := is_alnum c || Ascii.eqb c "_".

(** [\W]. *)
Definition is_nonword (c : ascii) : bool := negb (is_word c).

(** [str.lower] on one code point: the cased letters below U+0100 with a
    lowercase partner are A-Z and U+00C0..U+00DE except the multiplication
    sign U+00D7; the partner is 32 code points higher. *)
Definition lower_char (c : ascii) : ascii :=
  if between 65 90 c || between 192 214 c || between 216 222 c
  then ascii_of_N (code c + 32) else c.

Fixpoint lower (s : string) : string :=
  match s with
  | EmptyString => EmptyString
  | String c r => String (lower_char c) (lower r)
  end.

Fixpoint str_filter (p : ascii -> bool) (s : string) : string :=
  match s with
  | EmptyString => EmptyString
  | String c r => if p c then String c (str_filter p r) else str_filter p r
  end.

Fixpoint str_forall (p : ascii -> bool) (s : string) : bool :=
  match s with
  | EmptyString => true
  | String c r => p c && str_forall p r
  end.

Fixpoint str_mem (c : ascii) (s : string) : bool :=
  match s with
  | EmptyString => false
  | String d r => Ascii.eqb c d || str_mem c r
  end.

(** The remainder of [s] after the longest prefix of characters in the
    class [cls]: where a greedy match of [cls+] at the start of [s] ends. *)
Fixpoint skip_class (cls : ascii -> bool) (s : string) : string :=
  match s with
  | EmptyString => EmptyString
  | String c r => if cls c then skip_class cls r else s
  end.

(** [re.compile('[cls]+').sub('', s)]: scan [s] from the left; where the
    pattern matches, the (greedy, non-empty) match is replaced by the empty
    string and the scan resumes after it; other characters are copied. *)
Equations re_sub_class (cls : ascii -> bool) (s : string) : string
  by wf (String.length s) lt :=
  re_sub_class cls EmptyString := EmptyString;
  re_sub_class cls (String c r) with cls c := {
    | true := re_sub_class cls (skip_class cls r)
    | false := String c (re_sub_class cls r) }.
Next Obligation.
  clear. simpl. induction r as [|d r IH]; simpl; [lia|].
  destruct (cls d); simpl; lia.
Qed.

(** Whitespace below U+0100 as [str.strip] sees it. *)
Definition is_space (c : ascii) : bool :=
  between 9 13 c || between 28 32 c
  || bool_decide (code c ∈ [133; 160]%N).

Fixpoint rstrip (s : string) : string :=
  match s with
  | EmptyString => EmptyString
  | String c r =>
      match rstrip r with
      | EmptyString => if is_space c then EmptyString else String c EmptyString
      | r' => String c r'
      end
  end.

(** [str.strip()]. *)
Definition strip (s : string) : string := rstrip (skip_class is_space s).

End PyStr.

(** ** Schema names *)

(** The character class [[\W_]] of [_create_schema_name]. *)
Definition schema_class (c : ascii) : bool :=
  PyStr.is_nonword c || Ascii.eqb c "_".

(** [_create_schema_name]:
    [re.compile(r'[\W_]+').sub('', customer_name).lower()]. *)
Definition _create_schema_name (customer_name : string) : string :=
  PyStr.lower (PyStr.re_sub_class schema_class customer_name).

(** ** Python values *)

(** The string constants of the module that [UserPreferenceSerializer]
    compares by identity. *)
Inductive literal := LitLocale | LitCurrency | LitTimezone.

#[global] Instance literal_eq_dec : EqDecision literal.
Proof. solve_decision. Defined.

Definition literal_chars (l : literal) : string :=
  match l with
  | LitLocale => "locale"
  | LitCurrency => "currency"
  | LitTimezone => "timezone"
  end.

(** A [str] object.  Identifier-like string constants are interned when the
    code is compiled: every occurrence of ['locale'] in program text denotes
    one and the same object.  A string built at run time (decoded from a
    request body, read from the settings) is another object, whatever its
    characters. *)
Inductive pystr :=
  | Interned (l : literal)
  | Allocated (s : string).

Definition chars (s : pystr) : string :=
  match s with
  | Interned l => literal_chars l
  | Allocated s => s
  end.

(** Values as they appear in serializer data: JSON-like. *)
Inductive pyval :=
  | VNone
  | VBool (b : bool)
  | VInt (z : Z)
  | VStr (s : pystr)
  | VList (l : list pyval)
  | VDict (d : gmap string pyval).

(** [v is lit] for a string constant [lit] of the module. *)
Definition py_is (v : pyval) (lit : literal) : bool :=
  match v with
  | VStr (Interned l) => bool_decide (l = lit)
  | _ => false
  end.

(** [v in iterable] for an iterable of strings: membership by [==], and only
    a [str] is equal to a [str]. *)
Definition py_in (v : pyval) (iterable : list string) : bool :=
  match v with
  | VStr s => bool_decide (chars s ∈ iterable)
  | _ => false
  end.

(** [d.get(key)]: [None] when the key is missing. *)
Definition dict_get (d : gmap string pyval) (key : string) : pyval :=
  default VNone (d !! key).

(** ** Exceptions *)

Inductive detail :=
  | Invalid (field : string) (pref : pyval)
      (** the message [f'Invalid {field}: {pref}'] *)
  | FieldErrors (errors : list (string * string)).
      (** errors of field validation: field name and error code *)

Inductive exn :=
  | ValidationError (d : detail)
  | TypeError
  | AttributeError
  | KeyError (key : string)
  | ValueError
  | IntegrityError
  | DoesNotExist
  | MultipleObjectsReturned
  | MailError
  | LocaleError.   (** [locale.Error] *)

Inductive result (A : Type) :=
  | Ok (a : A)
  | Raise (e : exn).
Arguments Ok {A} a.
Arguments Raise {A} e.

Definition is_validation_error {A} (r : result A) : bool :=
  match r with
  | Raise (ValidationError _) => true
  | _ => false
  end.

(** ** The database, the mailer and the entropy source *)

(** Modelled from the spec: the models ([koku/api/iam/models.py]) are not
    among the sources.  The entities are those of the data model: User
    (identity, credentials, uuid), Customer (owns a schema name and an owner
    user), UserPreference (a named preference of a user) and ResetToken (a
    token tied to a user); the columns are the ones the serializers and the
    migration name. *)
Record User := {
  user_id : nat;
  user_uuid : N;
  user_username : string;
  user_email : string;
  user_password : string }.

Record UserPreference := {
  pref_id : nat;
  pref_uuid : N;
  pref_user_id : nat;
  pref_name : string;
  pref_description : option string;
  pref_preference : pyval }.

Record ResetToken := {
  token_id : nat;
  token_token : N;
  token_user_id : nat }.

Record Customer := {
  customer_id : nat;
  customer_uuid : N;
  customer_name : string;
  customer_owner_id : nat;
  customer_schema_name : string }.

(** A row of one of the tables; [RMember c u] is a row of the relation behind
    [customer.user_set].  The database is the sequence of its rows in the
    order they were inserted. *)
Inductive row :=
  | RUser (u : User)
  | RPref (p : UserPreference)
  | RToken (t : ResetToken)
  | RCustomer (c : Customer)
  | RMember (customer user : nat).

Definition users (db : list row) : list User :=
  omap (λ r, match r with RUser u => Some u | _ => None end) db.
Definition preferences (db : list row) : list UserPreference :=
  omap (λ r, match r with RPref p => Some p | _ => None end) db.
Definition tokens (db : list row) : list ResetToken :=
  omap (λ r, match r with RToken t => Some t | _ => None end) db.
Definition customers (db : list row) : list Customer :=
  omap (λ r, match r with RCustomer c => Some c | _ => None end) db.
Definition members (db : list row) : list (nat * nat) :=
  omap (λ r, match r with RMember c u => Some (c, u) | _ => None end) db.

(** One call of [new_user_login_email]: its four positional arguments. *)
Record login_email := {
  mail_username : option string;
  mail_email : option string;
  mail_user_uuid : string;
  mail_token : string }.

Record world := {
  database : list row;       (** committed and pending rows *)
  sequence : nat;            (** primary-key sequence *)
  outbox : list login_email; (** calls of the mailer so far *)
  draws : nat }.             (** entropy consumed so far *)

(** What the module takes from its surroundings: Django and the REST
    framework, the models and mailer of the application, the settings, the
    locale database, pytz and the operating system. *)
Record environment := {
  (** [django.core.validators.validate_email] accepts the address *)
  validate_email : string -> bool;
  (** [UnicodeUsernameValidator] accepts the name *)
  username_validator : string -> bool;
  (** [BaseUserManager.normalize_email], [AbstractBaseUser.normalize_username] *)
  normalize_email : string -> string;
  normalize_username : string -> string;
  (** what [set_password] stores for a raw password *)
  make_password : string -> string;
  (** the constraints the models declare: may the row be inserted? *)
  integrity : list row -> row -> bool;
  (** the [n]-th block of bits read from the system entropy source *)
  urandom : nat -> N;
  (** [settings.KOKU_DEFAULT_*] *)
  KOKU_DEFAULT_CURRENCY : string;
  KOKU_DEFAULT_TIMEZONE : string;
  KOKU_DEFAULT_LOCALE : string;
  (** [locale.locale_alias.values()] *)
  locale_alias_values : list string;
  (** [int_curr_symbol] of [locale.localeconv()] once [LC_MONETARY] is set to
      the normalised locale name; [None] when setting it raises
      [locale.Error] or reading the conventions [UnicodeDecodeError] *)
  int_curr_symbol : string -> option string;
  (** [locale.getlocale()]: the locale of [LC_CTYPE]; [None] when its name
      cannot be parsed, which raises [ValueError] *)
  getlocale : option string;
  (** can [LC_MONETARY] be set to the locale [getlocale] returned?
      [locale.setlocale] raises [locale.Error] when it cannot *)
  setlocale_monetary : string -> bool;
  (** [pytz.all_timezones] *)
  all_timezones : list string;
  (** [django.utils.translation.gettext] *)
  gettext : string -> string;
  (** does [new_user_login_email] return normally on this call? *)
  mail_delivers : login_email -> bool }.

(** ** Computations *)

Definition M (A : Type) : Type := world -> result A * world.

#[global] Instance M_ret : MRet M := λ A a w, (Ok a, w).
#[global] Instance M_bind : MBind M := λ A B f m w,
  match m w with
  | (Ok a, w') => f a w'
  | (Raise e, w') => (Raise e, w')
  end.

Definition raise {A} (e : exn) : M A := λ w, (Raise e, w).

Definition lift {A} (r : result A) : M A := λ w, (r, w).

(** [@transaction.atomic]: when the body raises, the rows written since the
    block was entered are rolled back and the exception propagates.  Sequence
    values, mail already sent and entropy already read are not restored. *)
Definition atomic {A} (body : M A) : M A := λ w,
  match body w with
  | (Ok a, w') => (Ok a, w')
  | (Raise e, w') =>
      (Raise e, {| database := database w; sequence := sequence w';
                   outbox := outbox w'; draws := draws w' |})
  end.

Section Serializers.

Context (env : environment).

(** *** Primitive effects *)

(** Read the next block from the entropy source. *)
Definition entropy : M N := λ w,
  (Ok (urandom env (draws w)),
   {| database := database w; sequence := sequence w;
      outbox := outbox w; draws := S (draws w) |}).

(** Next primary key. *)
Definition nextval : M nat := λ w,
  (Ok (S (sequence w)),
   {| database := database w; sequence := S (sequence w);
      outbox := outbox w; draws := draws w |}).

Definition query {A} (f : list row -> A) : M A := λ w, (Ok (f (database w)), w).

(** INSERT: refused with [IntegrityError] when a declared constraint fails;
    otherwise the row is appended. *)
Definition insert (r : row) : M unit := λ w,
  if integrity env (database w) r
  then (Ok tt, {| database := database w ++ [r]; sequence := sequence w;
                  outbox := outbox w; draws := draws w |})
  else (Raise IntegrityError, w).

(** Modelled from the spec: [new_user_login_email] lives in
    [koku/api/iam/email.py], which is not among the sources; it is the
    "email-sending collaborator invoked with username, email, user uuid, and
    reset-token value".  Every call is recorded in the outbox, also one whose
    delivery raises. *)
Definition new_user_login_email (username email : option string)
    (uuid token : string) : M unit := λ w,
  let msg := {| mail_username := username; mail_email := email;
                mail_user_uuid := uuid; mail_token := token |} in
  let w' := {| database := database w; sequence := sequence w;
               outbox := outbox w ++ [msg]; draws := draws w |} in
  if mail_delivers env msg then (Ok tt, w') else (Raise MailError, w').

(** *** UUIDs *)

(** [uuid.uuid4()]: 128 random bits with the variant (RFC 4122) and the
    version (4) forced. *)
Definition uuid4 : M N :=
  r ← entropy;
  let i := (r mod 2 ^ 128)%N in
  let i := N.lor (N.ldiff i (N.shiftl 0xc000 48)) (N.shiftl 0x8000 48) in
  let i := N.lor (N.ldiff i (N.shiftl 0xf000 64)) (N.shiftl 4 76) in
  mret i.

Definition hex_digit (n : N) : ascii :=
  default "0"%char (String.get (N.to_nat n) "0123456789abcdef").

(** The [k] low hexadecimal digits of [n], most significant first. *)
Fixpoint hex_digits (k : nat) (n : N) : string :=
  match k with
  | 0 => EmptyString
  | S k' => String (hex_digit (N.shiftr n (4 * N.of_nat k') mod 16)%N)
                   (hex_digits k' n)
  end.

(** [str(u)] for a UUID: ['%032x'] cut 8-4-4-4-12. *)
Definition uuid_str (u : N) : string :=
  let hex := hex_digits 32 u in
  substring 0 8 hex +:+ "-" +:+ substring 8 4 hex +:+ "-" +:+
  substring 12 4 hex +:+ "-" +:+ substring 16 4 hex +:+ "-" +:+
  substring 20 12 hex.

(** *** Temporary passwords *)

Definition choices : string :=
  "!@#$%^&*()_+" +:+ PyStr.digits +:+ PyStr.ascii_uppercase
                 +:+ PyStr.ascii_lowercase.

(** [secrets.choice(seq)]: the element at a random index below [len(seq)]. *)
Definition secrets_choice (seq : string) : M ascii :=
  r ← entropy;
  mret (default "000"%char
          (String.get (N.to_nat (r mod N.of_nat (String.length seq))) seq)).

(** [''.join(f() for i in range(n))]. *)
Fixpoint join_times (n : nat) (f : M ascii) : M string :=
  match n with
  | 0 => mret EmptyString
  | S n' => c ← f; s ← join_times n' f; mret (String c s)
  end.

Definition _gen_temp_password : M string :=
  join_times 10 (secrets_choice choices).

(** *** The user manager *)

(** [User.objects.create_user(username=, email=, password=)]: refuses an
    empty user name, normalises name and address, stores the hashed
    password, and inserts the row. *)
Definition create_user (username email : option string) (password : string)
    : M User :=
  match username with
  | None | Some EmptyString => raise ValueError
  | Some name =>
      uuid ← uuid4;
      pk ← nextval;
      let user := {| user_id := pk; user_uuid := uuid;
                     user_username := normalize_username env name;
                     user_email := normalize_email env (default "" email);
                     user_password := make_password env password |} in
      insert (RUser user);;
      mret user
  end.

(** [User.objects.get(username=name)]. *)
Definition get_user_by_username (name : string) : M User :=
  found ← query (λ db, filter (λ u, user_username u = name) (users db));
  match found with
  | [] => raise DoesNotExist
  | [u] => mret u
  | _ => raise MultipleObjectsReturned
  end.

(** *** Preference validation *)

(** [_currency_symbols]: the current locale is read; for every locale alias
    whose monetary conventions can be loaded and whose international
    currency symbol is not the empty string, the stripped symbol is added to
    a set; [LC_MONETARY] is then set to the locale read at the start, and
    the set is returned as a list.  The loop catches [locale.Error]; the
    call after the loop is outside the [try] and raises it when that locale
    cannot be set.  (The test [currency is not ''] compares with the empty
    string, of which there is one object.  The value [LC_MONETARY] is left
    with is read by nothing in the module and is not kept.) *)
Definition _currency_symbols : result (list string) :=
  match getlocale env with
  | None => Raise ValueError
  | Some current =>
      let add (symbols : gset string) (loc : string) : gset string :=
        match int_curr_symbol env loc with
        | Some currency =>
            if decide (currency = "") then symbols
            else {[ PyStr.strip currency ]} ∪ symbols
        | None => symbols
        end in
      let symbols := foldl add ∅ (locale_alias_values env) in
      if setlocale_monetary env current then Ok (elements symbols)
      else Raise LocaleError
  end.

(** [_generic_validation(data, field, iterable)].  The guard compares the
    name with [field] by identity ([is not]).  The default of the second
    [get] is the type [dict] itself, on which [.get(field)] is a call of
    the unbound method with a [str] receiver: a [TypeError].  A value that
    is no dictionary has no [get]: an [AttributeError]. *)
Definition _generic_validation (data : gmap string pyval) (field : literal)
    (iterable : list string) : result unit :=
  if negb (py_is (dict_get data "name") field) then Ok tt
  else
    match data !! "preference" with
    | None => Raise TypeError
    | Some (VDict d) =>
        let pref := dict_get d (literal_chars field) in
        if negb (py_in pref iterable)
        then Raise (ValidationError (Invalid (literal_chars field) pref))
        else Ok tt
    | Some _ => Raise AttributeError
    end.

Definition _validate_locale (data : gmap string pyval) : result unit :=
  _generic_validation data LitLocale (locale_alias_values env).

(** The argument [_currency_symbols()] is evaluated before the call, that
    is, before the guard on the name. *)
Definition _validate_currency (data : gmap string pyval) : result unit :=
  match _currency_symbols with
  | Raise e => Raise e
  | Ok symbols => _generic_validation data LitCurrency symbols
  end.

Definition _validate_timezone (data : gmap string pyval) : result unit :=
  _generic_validation data LitTimezone (all_timezones env).

(** [UserPreferenceSerializer.validate]. *)
Definition validate (data : gmap string pyval)
    : result (gmap string pyval) :=
  match _validate_locale data with
  | Raise e => Raise e
  | Ok _ =>
      match _validate_currency data with
      | Raise e => Raise e
      | Ok _ =>
          match _validate_timezone data with
          | Raise e => Raise e
          | Ok _ => Ok data
          end
      end
  end.

(** *** Field validation of the REST framework *)

Inductive field_outcome :=
  | Skipped                      (** not supplied and not required *)
  | Value (v : pyval)
  | Errors (codes : list string).

(** [str.strip()] returns the receiver itself when there is nothing to
    strip. *)
Definition strip_obj (s : pystr) : pystr :=
  if decide (PyStr.strip (chars s) = chars s) then s
  else Allocated (PyStr.strip (chars s)).

(** [CharField.run_validation]: presence, null and blank checks, conversion
    to a stripped string, then every validator; [validators] maps the
    string to the codes of the validators that reject it. *)
Definition char_field (required allow_null : bool)
    (validators : string -> list string) (raw : option pyval)
    : field_outcome :=
  let checked (s : pystr) :=
    let s := strip_obj s in
    if decide (chars s = "") then Errors ["blank"]
    else match validators (chars s) with
         | [] => Value (VStr s)
         | codes => Errors codes
         end in
  match raw with
  | None => if required then Errors ["required"] else Skipped
  | Some VNone => if allow_null then Value VNone else Errors ["null"]
  | Some (VStr s) => checked s
  | Some (VInt z) => checked (Allocated (pretty z))
  | Some _ => Errors ["invalid"]
  end.

Definition max_length (n : nat) (s : string) : list string :=
  if decide (String.length s ≤ n) then [] else ["max_length"].

(** Collect the outcome of one field into the validated data or into the
    errors of the serializer. *)
Definition collect (name : string) (o : field_outcome)
    (acc : gmap string pyval * list (string * string))
    : gmap string pyval * list (string * string) :=
  match o with
  | Skipped => acc
  | Value v => (<[name := v]> acc.1, acc.2)
  | Errors codes => (acc.1, acc.2 ++ ((λ c, (name, c)) <$> codes))
  end.

Definition finish (acc : gmap string pyval * list (string * string))
    : result (gmap string pyval) :=
  match acc.2 with
  | [] => Ok acc.1
  | errors => Raise (ValidationError (FieldErrors errors))
  end.

(** [UserPreferenceSerializer]: [uuid] and [user] are read-only; [name]
    and [description] are the character fields the migration declares;
    [preference] takes any JSON value. *)
Definition UserPreferenceSerializer_to_internal_value
    (data : gmap string pyval) : result (gmap string pyval) :=
  finish
    (collect "preference"
       (from_option Value Skipped (data !! "preference"))
       (collect "description"
          (char_field false true (max_length 255) (data !! "description"))
          (collect "name"
             (char_field false false (max_length 255) (data !! "name"))
             (∅, [])))).

(** [serializer.is_valid(raise_exception=True)]. *)
Definition UserPreferenceSerializer_is_valid (data : gmap string pyval)
    : result (gmap string pyval) :=
  match UserPreferenceSerializer_to_internal_value data with
  | Raise e => Raise e
  | Ok internal => validate internal
  end.

(** [UserPreferenceSerializer.create], under [@transaction.atomic]. *)
Definition UserPreferenceSerializer_create (context_user : User)
    (validated_data : gmap string pyval) : M UserPreference :=
  atomic (
    user ← get_user_by_username (user_username context_user);
    uuid ← uuid4;
    name ← match validated_data !! "name" with
           | Some (VStr s) => mret (chars s)
           | _ => u ← uuid4; mret (uuid_str u)
           end;
    pk ← nextval;
    let p := {| pref_id := pk; pref_uuid := uuid;
                pref_user_id := user_id user;
                pref_name := name;
                pref_description :=
                  match validated_data !! "description" with
                  | Some (VStr s) => Some (chars s)
                  | _ => None
                  end;
                pref_preference :=
                  default (VDict ∅) (validated_data !! "preference") |} in
    insert (RPref p);;
    mret p).

(** [model_to_dict(user)], restricted to the columns modelled here. *)
Definition model_to_dict (u : User) : pyval :=
  VDict (<["id" := VInt (Z.of_nat (user_id u))]>
         (<["username" := VStr (Allocated (user_username u))]>
         (<["email" := VStr (Allocated (user_email u))]>
         (<["password" := VStr (Allocated (user_password u))]> ∅)))).

Definition defaults : list (literal * string) :=
  [ (LitCurrency, KOKU_DEFAULT_CURRENCY env);
    (LitTimezone, KOKU_DEFAULT_TIMEZONE env);
    (LitLocale, KOKU_DEFAULT_LOCALE env) ].

(** The body of the loop of [_create_default_preferences] for the default
    [{key: value}] : the name is the key object of the dictionary, that is,
    the string constant itself. *)
Definition create_default_preference (user : User)
    (pref : literal * string) : M UserPreference :=
  let data : gmap string pyval :=
    <["preference" := VDict {[ literal_chars pref.1 := VStr (Allocated pref.2) ]}]>
    (<["user" := model_to_dict user]>
    (<["name" := VStr (Interned pref.1)]>
    (<["description" := VStr (Allocated (gettext env "default preference"))]>
     ∅))) in
  validated ← lift (UserPreferenceSerializer_is_valid data);
  UserPreferenceSerializer_create user validated.

Fixpoint for_each {A B} (f : A -> M B) (l : list A) : M (list B) :=
  match l with
  | [] => mret []
  | a :: l' => b ← f a; bs ← for_each f l'; mret (b :: bs)
  end.

(** [_create_default_preferences]. *)
Definition _create_default_preferences (user : User)
    : M (list UserPreference) :=
  for_each (create_default_preference user) defaults.

(** *** Registration *)

(** [reset_token = ResetToken(user=user); reset_token.save()]: the token is
    a fresh [uuid4]. *)
Definition new_reset_token (user : User) : M ResetToken :=
  token ← uuid4;
  pk ← nextval;
  let t := {| token_id := pk; token_token := token;
              token_user_id := user_id user |} in
  insert (RToken t);;
  mret t.

(** The password [_create_user] hands to the user manager: the given one when
    it is truthy, a temporary one otherwise. *)
Definition choose_password (password : option string) : M string :=
  match password with
  | Some p => if decide (p = "") then _gen_temp_password else mret p
  | None => _gen_temp_password
  end.

(** [_create_user(username, email, password)]. *)
Definition _create_user (username email password : option string) : M User :=
  user_pass ← choose_password password;
  user ← create_user username email user_pass;
  _create_default_preferences user;;
  reset_token ← new_reset_token user;
  new_user_login_email username email
    (uuid_str (user_uuid user)) (uuid_str (token_token reset_token));;
  mret user.

(** Validated data of a user serializer: the keys may be missing. *)
Record user_data := {
  ud_username : option string;
  ud_email : option string;
  ud_password : option string }.

(** Validated data of the customer serializer. *)
Record customer_data := {
  cd_name : option string;
  cd_owner : option user_data }.

(** [UserSerializer.create], under [@transaction.atomic]. *)
Definition UserSerializer_create (validated_data : user_data) : M User :=
  atomic (_create_user (ud_username validated_data)
                       (ud_email validated_data)
                       (ud_password validated_data)).

(** [Customer.objects.create] with the validated data as keyword arguments:
    [name], [owner_id] and [schema_name]. *)
Definition Customer_objects_create (name : string) (owner_id : nat)
    (schema_name : string) : M Customer :=
  uuid ← uuid4;
  pk ← nextval;
  let c := {| customer_id := pk; customer_uuid := uuid;
              customer_name := name; customer_owner_id := owner_id;
              customer_schema_name := schema_name |} in
  insert (RCustomer c);;
  mret c.

(** [customer.user_set.add(owner)]: a membership row, unless it is there. *)
Definition user_set_add (c : Customer) (u : User) : M unit :=
  present ← query (λ db,
    bool_decide ((customer_id c, user_id u) ∈ members db));
  if (present : bool) then mret tt
  else insert (RMember (customer_id c) (user_id u)).

(** UPDATE of the customer with the primary key of [c]. *)
Definition write_customer (c : Customer) (r : row) : row :=
  match r with
  | RCustomer c' =>
      if decide (customer_id c' = customer_id c) then RCustomer c else r
  | _ => r
  end.

(** [customer.save()] of a stored customer: its row is written again. *)
Definition Customer_save (c : Customer) : M unit := λ w,
  (Ok tt,
   {| database := write_customer c <$> database w;
      sequence := sequence w; outbox := outbox w; draws := draws w |}).

(** The body of [CustomerSerializer.create]. *)
Definition CustomerSerializer_create_body (validated_data : customer_data)
    : M Customer :=
  match cd_owner validated_data with
  | None => raise (KeyError "owner")
  | Some owner_data =>
      owner ← _create_user (ud_username owner_data) (ud_email owner_data)
                           (ud_password owner_data);
      match cd_name validated_data with
      | None => raise (KeyError "name")
      | Some name =>
          customer ← Customer_objects_create name (user_id owner)
                       (_create_schema_name name);
          user_set_add customer owner;;
          Customer_save customer;;
          mret customer
      end
  end.

(** [CustomerSerializer.create], under [@transaction.atomic]. *)
Definition CustomerSerializer_create (validated_data : customer_data)
    : M Customer :=
  atomic (CustomerSerializer_create_body validated_data).

(** *** Validation of users and customers *)

Definition as_string (v : pyval) : option string :=
  match v with
  | VStr s => Some (chars s)
  | _ => None
  end.

(** [UniqueValidator(queryset=User.objects.all())] on the [email] field. *)
Definition unique_email (db : list row) (s : string) : list string :=
  if decide (s ∈ user_email <$> users db) then ["unique"] else [].

Definition unique_username (db : list row) (s : string) : list string :=
  if decide (s ∈ user_username <$> users db) then ["unique"] else [].

Definition email_syntax (s : string) : list string :=
  if validate_email env s then [] else ["invalid"].

Definition username_syntax (s : string) : list string :=
  if username_validator env s then [] else ["invalid"].

(** The [email] field of [UserSerializer]: required, not blank, at most 150
    characters, [validate_email] and the uniqueness validator. *)
Definition UserSerializer_email (db : list row) (raw : option pyval)
    : field_outcome :=
  char_field true false
    (λ s, email_syntax s ++ unique_email db s ++ max_length 150 s) raw.

(** The [email] field of [NestedUserSerializer]: as above, without the
    uniqueness validator. *)
Definition NestedUserSerializer_email (raw : option pyval) : field_outcome :=
  char_field true false (λ s, email_syntax s ++ max_length 150 s) raw.

Definition to_user_data (d : gmap string pyval) : user_data :=
  {| ud_username := d !! "username" ≫= as_string;
     ud_email := d !! "email" ≫= as_string;
     ud_password := d !! "password" ≫= as_string |}.

(** Field validation of [UserSerializer]: [uuid] is read-only; [username] is
    the model field (unique) and [password] is optional. *)
Definition UserSerializer_to_internal_value (db : list row)
    (data : gmap string pyval) : result (gmap string pyval) :=
  finish
    (collect "password"
       (char_field false false (max_length 128) (data !! "password"))
       (collect "email"
          (UserSerializer_email db (data !! "email"))
          (collect "username"
             (char_field true false
                (λ s, username_syntax s ++ unique_username db s
                      ++ max_length 150 s)
                (data !! "username"))
             (∅, [])))).

(** Field validation of [NestedUserSerializer]: no uniqueness checks. *)
Definition NestedUserSerializer_to_internal_value
    (data : gmap string pyval) : result (gmap string pyval) :=
  finish
    (collect "email"
       (NestedUserSerializer_email (data !! "email"))
       (collect "username"
          (char_field true false
             (λ s, username_syntax s ++ max_length 150 s)
             (data !! "username"))
          (∅, []))).

(** [serializer.is_valid(raise_exception=True)] followed by
    [serializer.save()] for a new user. *)
Definition UserSerializer_save (data : gmap string pyval) : M User :=
  db ← query id;
  validated ← lift (UserSerializer_to_internal_value db data);
  UserSerializer_create (to_user_data validated).

(** [ModelSerializer.create] for [NestedUserSerializer]: a plain
    [User.objects.create] with the validated data as keyword arguments. *)
Definition NestedUserSerializer_save (data : gmap string pyval) : M User :=
  validated ← lift (NestedUserSerializer_to_internal_value data);
  let d := to_user_data validated in
  uuid ← uuid4;
  pk ← nextval;
  let user := {| user_id := pk; user_uuid := uuid;
                 user_username := default "" (ud_username d);
                 user_email := default "" (ud_email d);
                 user_password := "" |} in
  insert (RUser user);;
  mret user.

(** Field validation of [CustomerSerializer]: [name] is required and [owner]
    is a nested [UserSerializer]. *)
Definition CustomerSerializer_to_internal_value (db : list row)
    (data : gmap string pyval) : result customer_data :=
  let name := char_field true false (λ _, []) (data !! "name") in
  let owner :=
    match data !! "owner" with
    | None => Raise (ValidationError (FieldErrors [("owner", "required")]))
    | Some (VDict d) => UserSerializer_to_internal_value db d
    | Some _ => Raise (ValidationError (FieldErrors [("owner", "invalid")]))
    end in
  match name, owner with
  | Value v, Ok d =>
      Ok {| cd_name := as_string v; cd_owner := Some (to_user_data d) |}
  | Errors codes, Ok _ =>
      Raise (ValidationError (FieldErrors ((λ c, ("name", c)) <$> codes)))
  | Errors codes, Raise (ValidationError (FieldErrors errors)) =>
      Raise (ValidationError
               (FieldErrors (((λ c, ("name", c)) <$> codes) ++ errors)))
  | _, Raise e => Raise e
  | Skipped, _ =>
      Raise (ValidationError (FieldErrors [("name", "required")]))
  end.

Definition CustomerSerializer_save (data : gmap string pyval) : M Customer :=
  db ← query id;
  validated ← lift (CustomerSerializer_to_internal_value db data);
  CustomerSerializer_create validated.

(** *** Updating a preference *)

(** UPDATE of the preference with the primary key of [p]. *)
Definition write_preference (p : UserPreference) (r : row) : row :=
  match r with
  | RPref p' => if decide (pref_id p' = pref_id p) then RPref p else r
  | _ => r
  end.

(** [instance.save()] of a preference that has a primary key: the stored row
    with that key is overwritten; when there is none, the row is inserted. *)
Definition UserPreference_save (p : UserPreference) : M unit := λ w,
  if bool_decide (pref_id p ∈ pref_id <$> preferences (database w))
  then (Ok tt,
        {| database := write_preference p <$> database w;
           sequence := sequence w; outbox := outbox w; draws := draws w |})
  else insert (RPref p) w.

(** [UserPreferenceSerializer.update] (no transaction is opened): the user
    is looked up by the name of the user in the context, its key is put
    into the validated data, and [ModelSerializer.update] assigns every
    entry of the validated data to the instance and saves it.  Validated
    data hold a string under [name] and a string or [None] under
    [description]. *)
Definition UserPreferenceSerializer_update (context_user : User)
    (instance : UserPreference) (validated_data : gmap string pyval)
    : M UserPreference :=
  user ← get_user_by_username (user_username context_user);
  let p := {| pref_id := pref_id instance; pref_uuid := pref_uuid instance;
              pref_user_id := user_id user;
              pref_name :=
                match validated_data !! "name" with
                | Some (VStr s) => chars s
                | _ => pref_name instance
                end;
              pref_description :=
                match validated_data !! "description" with
                | Some (VStr s) => Some (chars s)
                | Some _ => None
                | None => pref_description instance
                end;
              pref_preference :=
                default (pref_preference instance)
                        (validated_data !! "preference") |} in
  UserPreference_save p;;
  mret p.

(** *** Groups of customers *)

(** [CustomerSerializer.get_authentication_group_for_customer]:
    [Group.objects.get(name=customer)].  A customer is the group whose
    [user_set] holds its users; groups that are no customers are not
    modelled. *)
Definition get_authentication_group_for_customer (customer : string)
    : M Customer :=
  found ← query (λ db, filter (λ c, customer_name c = customer) (customers db));
  match found with
  | [] => raise DoesNotExist
  | [group] => mret group
  | _ => raise MultipleObjectsReturned
  end.

(** [CustomerSerializer.get_users_for_group]: [group.user_set.all()]. *)
Definition get_users_for_group (group : Customer) : M (list User) :=
  query (λ db, filter (λ u, (customer_id group, user_id u) ∈ members db)
                      (users db)).

End Serializers.

Arguments Skipped : clear implicits.
Arguments Value : clear implicits.
Arguments Errors : clear implicits.

(** ** The migration 0010_auto_20180523_1540 *)

Module Migration.

Inductive default_value :=
  | NOT_PROVIDED
  | Callable (name : string).   (** called for every new row *)

(** A model field with the options the migration uses; an option that is
    not given has Django's default. *)
Record field := {
  field_class : string;
  field_max_length : option nat;
  field_null : bool;
  field_default : default_value }.

Definition CharField (max_length : nat) (null : bool) (default : default_value)
    : field :=
  {| field_class := "CharField"; field_max_length := Some max_length;
     field_null := null; field_default := default |}.

Inductive operation :=
  | AlterModelOptions (name : string) (options : gmap string (list string))
  | AddField (model_name name : string) (f : field).

Definition dependencies : list (string * string) :=
  [ ("api", "0009_auto_20180523_0045") ].

Definition operations : list operation :=
  [ AlterModelOptions "userpreference" {[ "ordering" := ["name"] ]};
    AddField "userpreference" "description" (CharField 255 true NOT_PROVIDED);
    AddField "userpreference" "name"
      (CharField 255 false (Callable "uuid.uuid4")) ].

(** The state of one model: its columns in order and its default ordering. *)
Record model_state := {
  columns : list (string * field);
  ordering : list string }.

(** The effect of an operation on the project state.  An operation on a
    model that does not exist fails.  [AlterModelOptions] replaces the
    ordering by the one given (none when the option is left out);
    [AddField] appends a column. *)
Definition apply (op : operation) (st : gmap string model_state)
    : option (gmap string model_state) :=
  match op with
  | AlterModelOptions name options =>
      m ← st !! name;
      Some (<[name := {| columns := columns m;
                         ordering := default [] (options !! "ordering") |}]> st)
  | AddField model_name name f =>
      m ← st !! model_name;
      Some (<[model_name := {| columns := columns m ++ [(name, f)];
                               ordering := ordering m |}]> st)
  end.

Fixpoint apply_all (ops : list operation) (st : gmap string model_state)
    : option (gmap string model_state) :=
  match ops with
  | [] => Some st
  | op :: ops' => st' ← apply op st; apply_all ops' st'
  end.

Definition is_add_field (op : operation) : bool :=
  match op with AddField _ _ _ => true | _ => false end.

End Migration.

(** ** A concrete environment *)

Module Demo.

(** Split at the last ["@"]: [email.rsplit('@', 1)]. *)
Fixpoint rsplit_at (s : string) : option (string * string) :=
  match s with
  | EmptyString => None
  | String c r =>
      match rsplit_at r with
      | Some (a, b) => Some (String c a, b)
      | None => if Ascii.eqb c "@" then Some (EmptyString, r) else None
      end
  end.

(** Django's [normalize_email]: the domain part is lowercased. *)
Definition lowercase_domain (email : string) : string :=
  match rsplit_at (PyStr.strip email) with
  | Some (name, domain) => name +:+ "@" +:+ PyStr.lower domain
  | None => email
  end.

Definition unique_names (db : list row) (r : row) : bool :=
  match r with
  | RUser u => bool_decide (user_username u ∉ user_username <$> users db)
  | RCustomer c => bool_decide (customer_name c ∉ customer_name <$> customers db)
  | _ => true
  end.

Definition env : environment := {|
  validate_email := λ s, PyStr.str_mem "@" s;
  username_validator := λ _, true;
  normalize_email := lowercase_domain;
  normalize_username := id;
  make_password := λ raw, "pbkdf2$" +:+ raw;
  integrity := unique_names;
  urandom := λ n, (N.of_nat n * 2654435761 + 40503)%N;
  KOKU_DEFAULT_CURRENCY := "USD";
  KOKU_DEFAULT_TIMEZONE := "UTC";
  KOKU_DEFAULT_LOCALE := "en_US.UTF-8";
  locale_alias_values := ["en_US.ISO8859-1"; "en_US.UTF-8"; "de_DE.ISO8859-1"; "C"];
  int_curr_symbol := λ loc,
    if decide (loc = "C") then Some ""
    else if decide (loc = "de_DE.ISO8859-1") then Some "EUR "
    else if decide (loc = "xx_XX") then None
    else Some "USD ";
  getlocale := Some "C";
  setlocale_monetary := λ _, true;
  all_timezones := ["UTC"; "US/Eastern"; "Europe/Berlin"];
  gettext := id;
  mail_delivers := λ _, true |}.

Definition empty_world : world :=
  {| database := []; sequence := 0; outbox := []; draws := 0 |}.

Definition alice : user_data :=
  {| ud_username := Some "alice"; ud_email := Some "alice@Example.COM";
     ud_password := None |}.

Definition bob : user_data :=
  {| ud_username := Some "bob"; ud_email := Some "bob@example.com";
     ud_password := Some "s3cret" |}.

End Demo.

(** ** Notions used in the statements *)

(** The characters [_create_schema_name] keeps: word characters other than
    the underscore. *)
Definition kept_in_schema_name (c : ascii) : bool :=
  PyStr.is_word c && negb (Ascii.eqb c "_").

(** The schema name as the specification words it: the non-word characters
    stripped, the result lowercased. *)
Definition nonword_stripped_lowercased (name : string) : string :=
  PyStr.lower (PyStr.str_filter PyStr.is_word name).

(** A computation that cannot fail and leaves database and outbox alone. *)
Definition quiet {A} (m : M A) : Prop :=
  ∀ w, ∃ a w', m w = (Ok a, w')
               ∧ database w' = database w ∧ outbox w' = outbox w.

(** A string of ten characters of [choices]. *)
Definition temp_password (s : string) : Prop :=
  String.length s = 10
  ∧ PyStr.str_forall (λ c, PyStr.str_mem c choices) s = true.

(** What [choose_password] may return for a given argument. *)
Definition chosen_for (password : option string) (raw : string) : Prop :=
  match password with
  | Some p => if decide (p = "") then temp_password raw else raw = p
  | None => temp_password raw
  end.

(** The valid values of a preference name; for the currency, the list
    [_currency_symbols] returns (none when it raises). *)
Definition enumeration (env : environment) (lit : literal) : list string :=
  match lit with
  | LitLocale => locale_alias_values env
  | LitCurrency =>
      match _currency_symbols env with Ok symbols => symbols | Raise _ => [] end
  | LitTimezone => all_timezones env
  end.

(** The addresses of the stored users. *)
Definition emails (db : list row) : list string := user_email <$> users db.

(** An address a user serializer with the uniqueness validator refuses. *)
Definition refused_email (env : environment) (db : list row) (e : string)
    : Prop :=
  validate_email env e = false ∨ e ∈ emails db.

(** Every stored address is syntactically valid and no two are equal. *)
Definition emails_ok (env : environment) (db : list row) : Prop :=
  Forall (λ e, validate_email env e = true) (emails db) ∧ NoDup (emails db).

(** What a successful [save] of a user or customer serializer means for the
    stored addresses. *)
Definition adds_checked_email (env : environment) (w w' : world) : Prop :=
  ∃ e, validate_email env e = true
       ∧ (e ∉ emails (database w))
       ∧ emails (database w') = emails (database w) ++ [normalize_email env e]
       ∧ (normalize_email env e = e →
          emails_ok env (database w) → emails_ok env (database w')).

(** A character a schema name may contain: alphanumeric (so no underscore)
    and left as it is by [str.lower]. *)
Definition lowercase_alnum (c : ascii) : bool :=
  PyStr.is_alnum c && Ascii.eqb (PyStr.lower_char c) c.

(** A computation that only appends rows: whatever its outcome, the
    database it started from is a prefix of the one it leaves. *)
Definition appends {A} (m : M A) : Prop :=
  ∀ w r w', m w = (r, w') → database w `prefix_of` database w'.

(** A computation that sends no mail, whatever its outcome. *)
Definition silent {A} (m : M A) : Prop :=
  ∀ w r w', m w = (r, w') → outbox w' = outbox w.

(** The call of the mailer for a registered user and its reset token. *)
Definition login_email_for (username email : option string) (u : User)
    (t : ResetToken) : login_email :=
  {| mail_username := username; mail_email := email;
     mail_user_uuid := uuid_str (user_uuid u);
     mail_token := uuid_str (token_token t) |}.

(** A string as a character field hands it on: not empty, without
    surrounding whitespace, of at most [n] characters. *)
Definition clean_string (n : nat) (s : string) : Prop :=
  s ≠ "" ∧ PyStr.strip s = s ∧ String.length s ≤ n.

(** The string a character field makes of a raw value: a string stripped,
    an integer in decimal. *)
Definition field_string (v : pyval) : option string :=
  match v with
  | VStr s => Some (PyStr.strip (chars s))
  | VInt z => Some (PyStr.strip (pretty z))
  | _ => None
  end.

(** Defects of the data for a new user that the declared options of the
    fields of [UserSerializer] exclude: no or a null or a blank or an
    overlong address, no user name, a null or an overlong password. *)
Definition defective_user_data (data : gmap string pyval) : Prop :=
  data !! "email" = None
  ∨ data !! "email" = Some VNone
  ∨ (∃ s, data !! "email" = Some (VStr s)
          ∧ (PyStr.strip (chars s) = ""
             ∨ 150 < String.length (PyStr.strip (chars s))))
  ∨ data !! "username" = None
  ∨ data !! "password" = Some VNone
  ∨ (∃ s, data !! "password" = Some (VStr s)
          ∧ 128 < String.length (PyStr.strip (chars s))).

(** A computation that never lowers the primary-key sequence. *)
Definition grows {A} (m : M A) : Prop :=
  ∀ w r w', m w = (r, w') → sequence w ≤ sequence w'.

(** The keys of the stored customers come from the sequence. *)
Definition customer_keys_issued (w : world) : Prop :=
  ∀ c, c ∈ customers (database w) → customer_id c ≤ sequence w.

(** ** Concrete inputs *)

Module Cases.

Import Demo Migration.

(** The world after alice has registered through [UserSerializer]. *)
Definition with_alice : world := (UserSerializer_create env alice empty_world).2.

Definition big_corp : customer_data :=
  {| cd_name := Some "Big_Corp, Inc."; cd_owner := Some bob |}.

(** A request body as the JSON parser delivers it: every string is a new
    object. *)
Definition currency_request : gmap string pyval :=
  <["name" := VStr (Allocated "currency")]>
  (<["preference" := VDict {[ "currency" := VStr (Allocated "LOL") ]}]> ∅).

Definition theme_request : gmap string pyval :=
  <["name" := VStr (Allocated "theme")]>
  (<["preference" := VInt 3]> ∅).

(** Data built in the program from its own string constants. *)
Definition locale_data (preference : pyval) : gmap string pyval :=
  <["name" := VStr (Interned LitLocale)]> (<["preference" := preference]> ∅).

Definition second_alice : gmap string pyval :=
  <["username" := VStr (Allocated "alice2")]>
  (<["email" := VStr (Allocated "alice@example.com")]> ∅).

Definition old_state : gmap string model_state :=
  <["userpreference" :=
      {| columns := [("uuid", {| field_class := "UUIDField";
                                field_max_length := None;
                                field_null := false;
                                field_default := Callable "uuid.uuid4" |})];
         ordering := [] |}]>
  (<["customer" := {| columns := []; ordering := ["name"] |}]> ∅).

End Cases.

Module MoreCases.

Import Demo Cases.

(** The concrete environment with a mailer that raises. *)
Definition mail_down : environment := {|
  validate_email := validate_email env;
  username_validator := username_validator env;
  normalize_email := normalize_email env;
  normalize_username := normalize_username env;
  make_password := make_password env;
  integrity := integrity env;
  urandom := urandom env;
  KOKU_DEFAULT_CURRENCY := KOKU_DEFAULT_CURRENCY env;
  KOKU_DEFAULT_TIMEZONE := KOKU_DEFAULT_TIMEZONE env;
  KOKU_DEFAULT_LOCALE := KOKU_DEFAULT_LOCALE env;
  locale_alias_values := locale_alias_values env;
  int_curr_symbol := int_curr_symbol env;
  getlocale := getlocale env;
  setlocale_monetary := setlocale_monetary env;
  all_timezones := all_timezones env;
  gettext := gettext env;
  mail_delivers := λ _, false |}.

(** The concrete environment of a host on which the locale reported by
    [locale.getlocale()] is not installed: [setlocale] refuses it. *)
Definition locale_missing : environment := {|
  validate_email := validate_email env;
  username_validator := username_validator env;
  normalize_email := normalize_email env;
  normalize_username := normalize_username env;
  make_password := make_password env;
  integrity := integrity env;
  urandom := urandom env;
  KOKU_DEFAULT_CURRENCY := KOKU_DEFAULT_CURRENCY env;
  KOKU_DEFAULT_TIMEZONE := KOKU_DEFAULT_TIMEZONE env;
  KOKU_DEFAULT_LOCALE := KOKU_DEFAULT_LOCALE env;
  locale_alias_values := locale_alias_values env;
  int_curr_symbol := int_curr_symbol env;
  getlocale := Some "en_US.UTF-8";
  setlocale_monetary := λ _, false;
  all_timezones := all_timezones env;
  gettext := gettext env;
  mail_delivers := mail_delivers env |}.

(** The world after the customer of [big_corp] has been created. *)
Definition with_big_corp : world :=
  (CustomerSerializer_create env big_corp empty_world).2.

Definition big_corp_again : customer_data :=
  {| cd_name := Some "Big_Corp, Inc."; cd_owner := Some alice |}.

Definition nameless : customer_data :=
  {| cd_name := None; cd_owner := Some bob |}.

(** The world after alice and bob have registered. *)
Definition with_both : world := (UserSerializer_create env bob with_alice).2.

(** The first preference stored for alice. *)
Definition alice_preference : UserPreference :=
  default {| pref_id := 0; pref_uuid := 0; pref_user_id := 0; pref_name := "";
             pref_description := None; pref_preference := VNone |}
          (head (preferences (database with_alice))).

(** A user object that carries bob's name. *)
Definition bob_in_context : User :=
  {| user_id := 0; user_uuid := 0; user_username := "bob";
     user_email := ""; user_password := "" |}.

Definition currency_data (pref : gmap string pyval) : gmap string pyval :=
  <["name" := VStr (Interned LitCurrency)]> (<["preference" := VDict pref]> ∅).

Definition carol_request : gmap string pyval :=
  <["username" := VStr (Allocated "carol")]>
  (<["email" := VStr (Allocated "  carol@example.com ")]>
  (<["password" := VStr (Allocated "pass phrase")]> ∅)).

(** What [UserSerializer] makes of [carol_request] once alice is stored. *)
Definition carol_validated : gmap string pyval :=
  match UserSerializer_to_internal_value env (database with_alice)
          carol_request with
  | Ok validated => validated
  | Raise _ => ∅
  end.

Definition no_email_request : gmap string pyval :=
  <["username" := VStr (Allocated "carol")]> ∅.

End MoreCases.

Import Migration Cases MoreCases.

(** ** Proof tools *)

Create HintDb quiet.

Ltac returned H :=
  unfold mret, M_ret in H; injection H as ? ?; subst.

(** Decide a closed proposition by evaluation. *)
Ltac by_computation :=
  match goal with
  | |- ?P => apply (bool_decide_unpack P); vm_compute; exact I
  end.

(** * Properties *)

(** ** Substitution by a character class is filtering *)

Lemma str_filter_skip_class cls s :
  PyStr.str_filter (λ c, negb (cls c)) (PyStr.skip_class cls s)
  = PyStr.str_filter (λ c, negb (cls c)) s.
Proof.
  induction s as [|c r IH]; simpl; [done|].
  destruct (cls c) eqn:Hc; simpl; [done|]. by rewrite Hc.
Qed.

Lemma re_sub_class_filter cls s :
  PyStr.re_sub_class cls s = PyStr.str_filter (λ c, negb (cls c)) s.
Proof.
  funelim (PyStr.re_sub_class cls s); simpl.
  - done.
  - rewrite Heq. simpl. by rewrite H, str_filter_skip_class.
  - rewrite Heq. simpl. by rewrite H.
Qed.

Lemma str_filter_ext p q s :
  (∀ c, p c = q c) → PyStr.str_filter p s = PyStr.str_filter q s.
Proof. intros E. induction s as [|c r IH]; simpl; [done|]. by rewrite E, IH. Qed.

Lemma _create_schema_name_filter name :
  _create_schema_name name
  = PyStr.lower (PyStr.str_filter kept_in_schema_name name).
Proof.
  unfold _create_schema_name. rewrite re_sub_class_filter. f_equal.
  apply str_filter_ext. intros c.
  unfold schema_class, kept_in_schema_name, PyStr.is_nonword.
  by destruct (PyStr.is_word c), (Ascii.eqb c "_").
Qed.

Example schema_name_ex1 : _create_schema_name "Big Corp., Inc." = "bigcorpinc".
Proof. vm_compute. reflexivity. Qed.

Example schema_name_ex2 : _create_schema_name "A_b.C!  d__e" = "abcde".
Proof. vm_compute. reflexivity. Qed.

Example strip_ex : PyStr.strip "  USD  " = "USD".
Proof. vm_compute. reflexivity. Qed.

(** ** Running computations *)

Lemma bind_ok {A B} (m : M A) (f : A → M B) w b w' :
  (m ≫= f) w = (Ok b, w') →
  ∃ a w1, m w = (Ok a, w1) ∧ f a w1 = (Ok b, w').
Proof.
  unfold mbind, M_bind. destruct (m w) as [[a|e] w1]; [eauto|done].
Qed.

Lemma bind_quiet {A B} (m : M A) (f : A → M B) w r w' :
  quiet m → (m ≫= f) w = (r, w') →
  ∃ a w1, m w = (Ok a, w1) ∧ database w1 = database w
          ∧ outbox w1 = outbox w ∧ f a w1 = (r, w').
Proof.
  intros Hm. destruct (Hm w) as (a & w1 & E & Hd & Ho).
  unfold mbind, M_bind. rewrite E. eauto 10.
Qed.

Lemma quiet_ret {A} (a : A) : quiet (mret a).
Proof. intros w. by exists a, w. Qed.

Lemma quiet_bind {A B} (m : M A) (f : A → M B) :
  quiet m → (∀ a, quiet (f a)) → quiet (m ≫= f).
Proof.
  intros Hm Hf w. destruct (Hm w) as (a & w1 & E & Hd & Ho).
  destruct (Hf a w1) as (b & w2 & E2 & Hd2 & Ho2).
  exists b, w2. unfold mbind, M_bind. rewrite E. split; [done|]. split; congruence.
Qed.

Lemma atomic_ok {A} (m : M A) w a w' :
  atomic m w = (Ok a, w') → m w = (Ok a, w').
Proof. unfold atomic. destruct (m w) as [[?|?] ?]; [done|discriminate]. Qed.

Lemma atomic_raise {A} (m : M A) w e w' :
  atomic m w = (Raise e, w') → database w' = database w.
Proof.
  unfold atomic. destruct (m w) as [[?|?] ?]; [discriminate|].
  by intros [= _ <-].
Qed.

Lemma lift_run {A} (r : result A) w r' w' :
  lift r w = (r', w') → r' = r ∧ w' = w.
Proof. by intros [= <- <-]. Qed.

Section Properties.

Context (env : environment).

Lemma quiet_entropy : quiet (entropy env).
Proof. intros w. by eexists _, _. Qed.

Lemma quiet_nextval : quiet nextval.
Proof. intros w. by eexists _, _. Qed.

Lemma quiet_uuid4 : quiet (uuid4 env).
Proof. apply quiet_bind; [apply quiet_entropy|]. intros r. apply quiet_ret. Qed.

Lemma quiet_query {A} (f : list row → A) : quiet (query f).
Proof. intros w. by eexists _, _. Qed.

Lemma insert_ok r w x w' :
  insert env r w = (Ok x, w') →
  database w' = database w ++ [r] ∧ outbox w' = outbox w.
Proof.
  unfold insert. destruct (integrity env (database w) r); [|discriminate].
  by intros [= _ <-].
Qed.

#[local] Hint Resolve quiet_entropy quiet_nextval quiet_uuid4 : quiet.
#[local] Hint Resolve quiet_ret : quiet.

(** Step through the first bind of a run [H]. *)
Ltac step H :=
  first
    [ apply bind_quiet in H; [|solve [eauto with quiet]];
      destruct H as (? & ? & ? & ? & ? & H)
    | apply bind_ok in H; destruct H as (? & ? & ? & H) ].

(** *** Temporary passwords *)

Lemma get_str_mem s i :
  i < String.length s →
  ∃ c, String.get i s = Some c ∧ PyStr.str_mem c s = true.
Proof.
  revert i. induction s as [|d r IH]; simpl; intros i Hi; [lia|].
  destruct i as [|i].
  - exists d. by rewrite Ascii.eqb_refl.
  - destruct (IH i) as (c & E & Hc); [lia|].
    exists c. split; [done|]. rewrite Hc. apply orb_true_r.
Qed.

Lemma secrets_choice_run seq w :
  seq ≠ EmptyString →
  ∃ c w', secrets_choice env seq w = (Ok c, w')
          ∧ PyStr.str_mem c seq = true
          ∧ database w' = database w ∧ outbox w' = outbox w.
Proof.
  intros Hne.
  assert (0 < String.length seq) as Hlen by (destruct seq; [done|simpl; lia]).
  destruct (get_str_mem seq
              (N.to_nat (urandom env (draws w) mod N.of_nat (String.length seq))))
    as (c & E & Hc).
  { pose proof (N.mod_upper_bound (urandom env (draws w))
                  (N.of_nat (String.length seq))). lia. }
  exists c. eexists. unfold secrets_choice, mbind, M_bind, entropy, mret, M_ret.
  simpl. rewrite E. simpl. done.
Qed.

Lemma join_times_run n seq w :
  seq ≠ EmptyString →
  ∃ s w', join_times n (secrets_choice env seq) w = (Ok s, w')
          ∧ String.length s = n
          ∧ PyStr.str_forall (λ c, PyStr.str_mem c seq) s = true
          ∧ database w' = database w ∧ outbox w' = outbox w.
Proof.
  intros Hne. revert w. induction n as [|n IH]; intros w; simpl.
  - by exists EmptyString, w.
  - destruct (secrets_choice_run seq w Hne) as (c & w1 & E & Hc & Hd & Ho).
    destruct (IH w1) as (s & w2 & E2 & Hl & Hall & Hd2 & Ho2).
    exists (String c s), w2. unfold mbind, M_bind. rewrite E, E2. simpl.
    rewrite Hc, Hall, Hl. repeat split; congruence.
Qed.

Lemma _gen_temp_password_run w :
  ∃ s w', _gen_temp_password env w = (Ok s, w') ∧ temp_password s
          ∧ database w' = database w ∧ outbox w' = outbox w.
Proof.
  destruct (join_times_run 10 choices w) as (s & w' & E & ? & ? & ? & ?);
    [done|].
  exists s, w'. by repeat split.
Qed.

Lemma choose_password_run password w :
  ∃ raw w', choose_password env password w = (Ok raw, w')
            ∧ chosen_for password raw
            ∧ database w' = database w ∧ outbox w' = outbox w.
Proof.
  unfold choose_password, chosen_for.
  destruct password as [p|]; [destruct (decide (p = ""))|];
    try apply _gen_temp_password_run.
  by exists p, w.
Qed.

Lemma quiet_choose_password password : quiet (choose_password env password).
Proof.
  intros w. destruct (choose_password_run password w) as (? & ? & ? & ? & ?).
  eauto.
Qed.
#[local] Hint Resolve quiet_choose_password : quiet.

(** *** The user manager and the reset token *)

Lemma create_user_ok username email password w u w' :
  create_user env username email password w = (Ok u, w') →
  database w' = database w ++ [RUser u] ∧ outbox w' = outbox w
  ∧ (∃ name, username = Some name ∧ name ≠ ""
             ∧ user_username u = normalize_username env name)
  ∧ user_email u = normalize_email env (default "" email)
  ∧ user_password u = make_password env password.
Proof.
  unfold create_user. intros H.
  destruct username as [[|c name]|]; try discriminate.
  step H. step H. step H. returned H.
  match goal with Hi : insert _ _ _ = _ |- _ =>
    apply insert_ok in Hi as [Hd Ho] end.
  simpl. repeat split; [congruence|congruence|eauto].
Qed.

Lemma new_reset_token_ok user w t w' :
  new_reset_token env user w = (Ok t, w') →
  database w' = database w ++ [RToken t] ∧ outbox w' = outbox w
  ∧ token_user_id t = user_id user.
Proof.
  unfold new_reset_token. intros H.
  step H. step H. step H. returned H.
  match goal with Hi : insert _ _ _ = _ |- _ =>
    apply insert_ok in Hi as [Hd Ho] end.
  simpl. repeat split; congruence.
Qed.

Lemma new_user_login_email_ok username email uuid token w w' :
  new_user_login_email env username email uuid token w = (Ok tt, w') →
  database w' = database w
  ∧ outbox w' = outbox w ++ [ {| mail_username := username;
                                 mail_email := email;
                                 mail_user_uuid := uuid;
                                 mail_token := token |} ].
Proof.
  unfold new_user_login_email.
  destruct (mail_delivers env _); [|discriminate]. by intros [= <-].
Qed.

(** *** Default preferences *)

Lemma users_elem (db : list row) u : RUser u ∈ db → u ∈ users db.
Proof. intros H. apply list_elem_of_omap. by exists (RUser u). Qed.

Lemma get_user_by_username_ok name w u w' :
  get_user_by_username name w = (Ok u, w') →
  w' = w ∧ filter (λ u, user_username u = name) (users (database w)) = [u].
Proof.
  unfold get_user_by_username, mbind, M_bind, query. simpl.
  destruct (filter _ _) as [|u1 [|u2 l]]; try discriminate.
  by intros [= <- <-].
Qed.

Lemma validate_ok data d : validate env data = Ok d → d = data.
Proof.
  unfold validate.
  destruct (_validate_locale env data); [|discriminate].
  destruct (_validate_currency env data); [|discriminate].
  destruct (_validate_timezone env data); [|discriminate].
  by intros [= <-].
Qed.

Lemma char_field_interned lit :
  char_field false false (max_length 255) (Some (VStr (Interned lit)))
  = Value (VStr (Interned lit)).
Proof. by destruct lit. Qed.

(** Field validation keeps the name object and the preference of the data
    built for a default preference. *)
Lemma is_valid_default data lit pref validated :
  data !! "name" = Some (VStr (Interned lit)) →
  data !! "preference" = Some pref →
  UserPreferenceSerializer_is_valid env data = Ok validated →
  validated !! "name" = Some (VStr (Interned lit))
  ∧ validated !! "preference" = Some pref.
Proof.
  intros Hn Hp. unfold UserPreferenceSerializer_is_valid.
  destruct (UserPreferenceSerializer_to_internal_value data)
    as [internal|] eqn:E; [|discriminate].
  intros ->%validate_ok. revert E.
  unfold UserPreferenceSerializer_to_internal_value.
  rewrite Hn, Hp, char_field_interned. simpl.
  destruct (char_field _ _ _ _) as [|v|codes]; simpl; unfold finish; simpl.
  - intros [= <-]. by simplify_map_eq.
  - intros [= <-]. by simplify_map_eq.
  - destruct codes; simpl; [|discriminate]. intros [= <-]. by simplify_map_eq.
Qed.

Lemma UserPreferenceSerializer_create_ok user validated s w p w' :
  validated !! "name" = Some (VStr s) →
  RUser user ∈ database w →
  UserPreferenceSerializer_create env user validated w = (Ok p, w') →
  database w' = database w ++ [RPref p] ∧ outbox w' = outbox w
  ∧ pref_user_id p = user_id user
  ∧ pref_name p = chars s
  ∧ pref_preference p = default (VDict ∅) (validated !! "preference").
Proof.
  intros Hn Hu H. apply atomic_ok in H. unfold UserPreferenceSerializer_create in H.
  rewrite Hn in H.
  apply bind_ok in H as (u' & w1 & Hget & H).
  apply get_user_by_username_ok in Hget as [-> Hf].
  assert (u' = user) as ->.
  { assert (user ∈ [u']) as Hin; [|by apply list_elem_of_singleton in Hin].
    rewrite <- Hf. apply list_elem_of_filter. split; [done|by apply users_elem]. }
  step H. step H. step H. step H. returned H.
  match goal with Hi : insert _ _ _ = _ |- _ =>
    apply insert_ok in Hi as [Hd Ho] end.
  match goal with Hm : mret _ _ = _ |- _ => returned Hm end.
  simpl. repeat split; congruence.
Qed.

Lemma create_default_preference_ok user lit v w p w' :
  RUser user ∈ database w →
  create_default_preference env user (lit, v) w = (Ok p, w') →
  database w' = database w ++ [RPref p] ∧ outbox w' = outbox w
  ∧ pref_user_id p = user_id user
  ∧ pref_name p = literal_chars lit
  ∧ pref_preference p = VDict {[ literal_chars lit := VStr (Allocated v) ]}.
Proof.
  intros Hu H. unfold create_default_preference in H. simpl in H.
  apply bind_ok in H as (validated & w1 & Hv & H).
  apply lift_run in Hv as [Hv ->]. symmetry in Hv.
  eapply is_valid_default in Hv as [Hn Hp]; [| by simplify_map_eq ..].
  eapply UserPreferenceSerializer_create_ok in H as (? & ? & ? & ? & Hpref);
    [|done..].
  rewrite Hp in Hpref. done.
Qed.

Lemma _create_default_preferences_ok user w ps w' :
  RUser user ∈ database w →
  _create_default_preferences env user w = (Ok ps, w') →
  ∃ pc pt pl,
    ps = [pc; pt; pl]
    ∧ database w' = database w ++ [RPref pc; RPref pt; RPref pl]
    ∧ outbox w' = outbox w
    ∧ Forall (λ p, pref_user_id p = user_id user) ps
    ∧ pref_name <$> ps = ["currency"; "timezone"; "locale"]
    ∧ pref_preference <$> ps =
        [ VDict {[ "currency" := VStr (Allocated (KOKU_DEFAULT_CURRENCY env)) ]};
          VDict {[ "timezone" := VStr (Allocated (KOKU_DEFAULT_TIMEZONE env)) ]};
          VDict {[ "locale" := VStr (Allocated (KOKU_DEFAULT_LOCALE env)) ]} ].
Proof.
  intros Hu H. unfold _create_default_preferences, defaults in H. simpl in H.
  apply bind_ok in H as (pc & w1 & H1 & H).
  apply create_default_preference_ok in H1 as (D1 & O1 & U1 & N1 & P1); [|done].
  apply bind_ok in H as (ps1 & w4 & H & Hret). returned Hret.
  apply bind_ok in H as (pt & w2 & H2 & H).
  apply create_default_preference_ok in H2 as (D2 & O2 & U2 & N2 & P2);
    [|rewrite D1; apply elem_of_app; by left].
  apply bind_ok in H as (ps2 & w5 & H & Hret). returned Hret.
  apply bind_ok in H as (pl & w3 & H3 & H).
  apply create_default_preference_ok in H3 as (D3 & O3 & U3 & N3 & P3);
    [|rewrite D2, D1; apply elem_of_app; left; apply elem_of_app; by left].
  apply bind_ok in H as (ps3 & w6 & H & Hret). returned Hret. returned H.
  exists pc, pt, pl. simpl in *.
  rewrite D3, D2, D1, O3, O2, O1, N1, N2, N3, P1, P2, P3, <- !(assoc_L (++)).
  repeat split; auto.
Qed.

(** *** Registration *)

(** Everything a successful [_create_user] has done, in order. *)
Lemma _create_user_ok username email password w u w' :
  _create_user env username email password w = (Ok u, w') →
  ∃ raw w1 pc pt pl t,
    choose_password env password w = (Ok raw, w1)
    ∧ chosen_for password raw
    ∧ user_password u = make_password env raw
    ∧ (∃ name, username = Some name ∧ name ≠ ""
               ∧ user_username u = normalize_username env name)
    ∧ user_email u = normalize_email env (default "" email)
    ∧ database w' =
        database w ++ [RUser u; RPref pc; RPref pt; RPref pl; RToken t]
    ∧ Forall (λ p, pref_user_id p = user_id u) [pc; pt; pl]
    ∧ pref_name <$> [pc; pt; pl] = ["currency"; "timezone"; "locale"]
    ∧ pref_preference <$> [pc; pt; pl] =
        [ VDict {[ "currency" := VStr (Allocated (KOKU_DEFAULT_CURRENCY env)) ]};
          VDict {[ "timezone" := VStr (Allocated (KOKU_DEFAULT_TIMEZONE env)) ]};
          VDict {[ "locale" := VStr (Allocated (KOKU_DEFAULT_LOCALE env)) ]} ]
    ∧ token_user_id t = user_id u
    ∧ outbox w' =
        outbox w ++ [ {| mail_username := username; mail_email := email;
                         mail_user_uuid := uuid_str (user_uuid u);
                         mail_token := uuid_str (token_token t) |} ].
Proof.
  intros H. unfold _create_user in H.
  destruct (choose_password_run password w) as (raw & w1 & Hp & Hc & D0 & O0).
  unfold mbind at 1, M_bind at 1 in H. rewrite Hp in H.
  apply bind_ok in H as (user & w2 & Hu & H).
  apply create_user_ok in Hu as (D1 & O1 & Hname & Hmail & Hpass).
  apply bind_ok in H as (ps & w3 & Hps & H).
  apply _create_default_preferences_ok in Hps
    as (pc & pt & pl & Eps & D2 & O2 & Hall & Hnames & Hprefs);
    [|rewrite D1; apply elem_of_app; right; by apply list_elem_of_singleton].
  rewrite Eps in Hall, Hnames, Hprefs.
  apply bind_ok in H as (t & w4 & Ht & H).
  apply new_reset_token_ok in Ht as (D3 & O3 & Htu).
  apply bind_ok in H as ([] & w5 & Hm & H).
  apply new_user_login_email_ok in Hm as (D4 & O4).
  returned H.
  exists raw, w1, pc, pt, pl, t.
  rewrite D4, D3, D2, D1, D0, O4, O3, O2, O1, O0, <- !(assoc_L (++)).
  simpl. repeat split; auto.
Qed.

(** C4: every successful registration through [_create_user] inserts exactly
    one user row, then the three default preference rows (currency,
    timezone, locale, each tied to the new user), then exactly one reset
    token row tied to the new user, and no other row. *)
Theorem C4_registration_rows username email password w u w' :
  _create_user env username email password w = (Ok u, w') →
  ∃ pc pt pl t,
    database w' =
      database w ++ [RUser u; RPref pc; RPref pt; RPref pl; RToken t]
    ∧ users (database w') = users (database w) ++ [u]
    ∧ tokens (database w') = tokens (database w) ++ [t]
    ∧ preferences (database w') = preferences (database w) ++ [pc; pt; pl]
    ∧ token_user_id t = user_id u
    ∧ Forall (λ p, pref_user_id p = user_id u) [pc; pt; pl]
    ∧ pref_name <$> [pc; pt; pl] = ["currency"; "timezone"; "locale"].
Proof.
  intros H. apply _create_user_ok in H
    as (raw & w1 & pc & pt & pl & t & _ & _ & _ & _ & _ & D & Hall & Hn & _ & Ht & _).
  exists pc, pt, pl, t. rewrite D.
  unfold users, tokens, preferences. rewrite !omap_app. simpl.
  done.
Qed.

(** C5: every successful registration through [_create_user] calls
    [new_user_login_email] exactly once, with the user name and the address
    the user was created with, the string of the new user's uuid and the
    string of the new reset token, in that order. *)
Theorem C5_login_email username email password w u w' :
  _create_user env username email password w = (Ok u, w') →
  ∃ t name,
    last (database w') = Some (RToken t)
    ∧ token_user_id t = user_id u
    ∧ username = Some name
    ∧ user_username u = normalize_username env name
    ∧ user_email u = normalize_email env (default "" email)
    ∧ outbox w' =
        outbox w ++ [ {| mail_username := username; mail_email := email;
                         mail_user_uuid := uuid_str (user_uuid u);
                         mail_token := uuid_str (token_token t) |} ].
Proof.
  intros H. apply _create_user_ok in H
    as (raw & w1 & pc & pt & pl & t & _ & _ & _ & (name & Hn & _ & Hu) & He
        & D & _ & _ & _ & Ht & O).
  exists t, name. rewrite D.
  replace [RUser u; RPref pc; RPref pt; RPref pl; RToken t]
    with ([RUser u; RPref pc; RPref pt; RPref pl] ++ [RToken t]) by done.
  rewrite (assoc_L (++)), last_snoc. done.
Qed.

(** C8: the password a successful [_create_user] stores for the user is the
    one [choose_password] returns: a generated string of exactly ten
    characters of [choices] when the argument is absent or empty, the
    argument itself otherwise. *)
Theorem C8_password username email password w u w' :
  _create_user env username email password w = (Ok u, w') →
  ∃ raw w1,
    choose_password env password w = (Ok raw, w1)
    ∧ user_password u = make_password env raw
    ∧ match password with
      | None | Some EmptyString =>
          String.length raw = 10
          ∧ PyStr.str_forall (λ c, PyStr.str_mem c choices) raw = true
      | Some p => raw = p
      end.
Proof.
  intros H. apply _create_user_ok in H
    as (raw & w1 & _ & _ & _ & _ & Hp & Hc & Hpass & _).
  exists raw, w1. repeat split; [done..|].
  unfold chosen_for in Hc. destruct password as [[|c p]|]; [done| |done].
  by destruct (decide _).
Qed.

Example choices_spelled_out :
  choices
  = "!@#$%^&*()_+0123456789ABCDEFGHIJKLMNOPQRSTUVWXYZabcdefghijklmnopqrstuvwxyz".
Proof. reflexivity. Qed.

(** *** Customers *)

Lemma write_customer_elem c r (db : list row) :
  r ∈ db → write_customer c r = r → r ∈ write_customer c <$> db.
Proof. intros Hr E. rewrite <- E. by apply list_elem_of_fmap_2. Qed.

Lemma write_customer_self c : write_customer c (RCustomer c) = RCustomer c.
Proof. unfold write_customer. by destruct (decide _). Qed.

Lemma members_write_customer c (db : list row) :
  members (write_customer c <$> db) = members db.
Proof.
  unfold members. induction db as [|r db IH]; [done|]. csimpl. rewrite IH.
  destruct r; simpl; try done. by destruct (decide _).
Qed.

Lemma members_elem (db : list row) c u : RMember c u ∈ db → (c, u) ∈ members db.
Proof. intros H. apply list_elem_of_omap. by exists (RMember c u). Qed.

Lemma members_elem_inv (db : list row) c u : (c, u) ∈ members db → RMember c u ∈ db.
Proof.
  intros ([] & Hr & E)%list_elem_of_omap; simplify_eq/=. done.
Qed.

Lemma user_set_add_ok c u w x w' :
  user_set_add env c u w = (Ok x, w') →
  (∀ r, r ∈ database w → r ∈ database w')
  ∧ RMember (customer_id c) (user_id u) ∈ database w'
  ∧ users (database w') = users (database w).
Proof.
  unfold user_set_add, mbind, M_bind, query. simpl.
  destruct (bool_decide _) eqn:E.
  - intros [= _ <-]. split; [done|]. split; [|done].
    apply bool_decide_eq_true in E. by apply members_elem_inv.
  - intros [Hd _]%insert_ok. rewrite Hd. split; [|split].
    + intros r Hr. apply elem_of_app. by left.
    + apply elem_of_app. right. by apply list_elem_of_singleton.
    + unfold users. rewrite omap_app. simpl. by rewrite app_nil_r.
Qed.

Lemma users_write_customer c (db : list row) :
  users (write_customer c <$> db) = users db.
Proof.
  unfold users. induction db as [|r db IH]; [done|]. csimpl. rewrite IH.
  destruct r; simpl; try done. by destruct (decide _).
Qed.

(** What a successful run of the body of [CustomerSerializer.create] did. *)
Lemma CustomerSerializer_create_body_ok data w c w' :
  CustomerSerializer_create_body env data w = (Ok c, w') →
  ∃ owner_data name owner w1,
    cd_owner data = Some owner_data ∧ cd_name data = Some name
    ∧ _create_user env (ud_username owner_data) (ud_email owner_data)
        (ud_password owner_data) w = (Ok owner, w1)
    ∧ customer_name c = name
    ∧ customer_owner_id c = user_id owner
    ∧ customer_schema_name c = _create_schema_name name
    ∧ RUser owner ∈ database w'
    ∧ RCustomer c ∈ database w'
    ∧ RMember (customer_id c) (user_id owner) ∈ database w'
    ∧ users (database w') = users (database w1).
Proof.
  unfold CustomerSerializer_create_body. intros H.
  destruct (cd_owner data) as [owner_data|]; [|discriminate].
  apply bind_ok in H as (owner & w1 & Hu & H).
  destruct (cd_name data) as [name|]; [|discriminate].
  exists owner_data, name, owner, w1.
  pose proof Hu as Hrows. apply _create_user_ok in Hrows
    as (_ & _ & pc & pt & pl & t & _ & _ & _ & _ & _ & D1 & _).
  apply bind_ok in H as (c' & w2 & Hc & H).
  unfold Customer_objects_create in Hc.
  apply bind_quiet in Hc as (uuid & wa & _ & Da & _ & Hc); [|eauto with quiet].
  apply bind_quiet in Hc as (pk & wb & _ & Db & _ & Hc); [|eauto with quiet].
  apply bind_ok in Hc as (? & wc & Hi & Hc). returned Hc.
  apply insert_ok in Hi as [D2 _]. rewrite Db, Da in D2.
  apply bind_ok in H as (? & w3 & Ha & H).
  apply user_set_add_ok in Ha as (Hkeep & Hmem & Husers).
  apply bind_ok in H as (? & w4 & Hs & H). returned H.
  unfold Customer_save in Hs. injection Hs as _ <-. simpl in *.
  assert (∀ c0, users (write_customer c0 <$> database w3)
                = users (database w1)).
  { intros c0. rewrite users_write_customer, Husers, D2. unfold users.
    rewrite omap_app. simpl. by rewrite app_nil_r. }
  repeat split; try done.
  - apply write_customer_elem; [|done]. apply Hkeep. rewrite D2.
    apply elem_of_app. left.
    rewrite D1. apply elem_of_app. right. apply list_elem_of_here.
  - apply write_customer_elem; [|apply write_customer_self].
    apply Hkeep. rewrite D2. apply elem_of_app. right. apply list_elem_of_here.
  - by apply write_customer_elem.
Qed.

(** C1 (as amended): the schema name stored for a customer created through
    [CustomerSerializer.create] is the customer's name with every non-word
    character and every underscore removed, lowercased: a function of the
    name alone. *)
Theorem C1_schema_name data w c w' :
  CustomerSerializer_create env data w = (Ok c, w') →
  ∃ name,
    cd_name data = Some name
    ∧ customer_name c = name
    ∧ customer_schema_name c
      = PyStr.lower (PyStr.str_filter kept_in_schema_name name)
    ∧ RCustomer c ∈ database w'.
Proof.
  intros H%atomic_ok%CustomerSerializer_create_body_ok.
  destruct H as (od & name & owner & w1 & _ & Hn & _ & Hname & _ & Hs & _ & Hc & _ & _).
  exists name. by rewrite Hs, _create_schema_name_filter.
Qed.

Lemma write_customer_fixes c (db : list row) :
  (∀ c', RCustomer c' ∈ db → customer_id c' = customer_id c → c' = c) →
  write_customer c <$> db = db.
Proof.
  induction db as [|r db IH]; [done|]. intros H. rewrite fmap_cons.
  rewrite IH by (intros c' Hc'; apply H; by apply list_elem_of_further).
  f_equal. destruct r as [| | |c'|]; simpl; try done.
  destruct (decide _) as [E|]; [|done].
  by rewrite (H c' (list_elem_of_here _ _) E).
Qed.

Lemma customers_elem (db : list row) c : RCustomer c ∈ db → c ∈ customers db.
Proof. intros H. apply list_elem_of_omap. by exists (RCustomer c). Qed.

(** A successful run of the body of [CustomerSerializer.create], row by
    row. *)
Lemma CustomerSerializer_create_body_rows data w c w' :
  CustomerSerializer_create_body env data w = (Ok c, w') →
  ∃ owner_data name owner w1 pc pt pl t membership,
    cd_owner data = Some owner_data ∧ cd_name data = Some name
    ∧ _create_user env (ud_username owner_data) (ud_email owner_data)
        (ud_password owner_data) w = (Ok owner, w1)
    ∧ customer_id c = S (sequence w1)
    ∧ customer_name c = name
    ∧ customer_owner_id c = user_id owner
    ∧ customer_schema_name c = _create_schema_name name
    ∧ database w' =
        write_customer c <$>
          (database w
           ++ [RUser owner; RPref pc; RPref pt; RPref pl; RToken t; RCustomer c]
           ++ membership)
    ∧ (membership = [RMember (customer_id c) (user_id owner)]
       ∨ membership = []
         ∧ (customer_id c, user_id owner) ∈ members (database w)).
Proof.
  unfold CustomerSerializer_create_body. intros H.
  destruct (cd_owner data) as [owner_data|]; [|discriminate].
  apply bind_ok in H as (owner & w1 & Hu & H).
  destruct (cd_name data) as [name|]; [|discriminate].
  pose proof Hu as Hrows. apply _create_user_ok in Hrows
    as (_ & _ & pc & pt & pl & t & _ & _ & _ & _ & _ & D1 & _).
  apply bind_ok in H as (c' & w2 & Hc & H).
  assert (customer_id c' = S (sequence w1)
          ∧ customer_name c' = name
          ∧ customer_owner_id c' = user_id owner
          ∧ customer_schema_name c' = _create_schema_name name
          ∧ database w2 = database w1 ++ [RCustomer c']) as (Hid & ? & ? & ? & D2).
  { revert Hc. unfold Customer_objects_create, mbind, M_bind, uuid4, entropy,
      nextval, insert, mret, M_ret. simpl.
    destruct (integrity _ _ _); [|discriminate]. by intros [= <- <-]. }
  apply bind_ok in H as (? & w3 & Ha & H).
  apply bind_ok in H as (? & w4 & Hs & H). returned H.
  unfold Customer_save in Hs. injection Hs as _ <-. simpl.
  assert (∃ membership,
            database w3 = database w2 ++ membership
            ∧ (membership = [RMember (customer_id c) (user_id owner)]
               ∨ membership = []
                 ∧ (customer_id c, user_id owner) ∈ members (database w)))
    as (membership & D3 & Hm).
  { revert Ha. unfold user_set_add, mbind, M_bind, query. simpl.
    destruct (bool_decide _) eqn:B.
    - intros [= _ <-]. exists []. rewrite app_nil_r. split; [done|]. right.
      split; [done|]. apply bool_decide_eq_true in B.
      revert B. rewrite D2, D1. unfold members. rewrite !omap_app. simpl.
      by rewrite !app_nil_r.
    - intros [D _]%insert_ok. eexists. split; [exact D|by left]. }
  eexists owner_data, _, owner, w1, pc, pt, pl, t, membership.
  repeat split; try done.
  rewrite D3, D2, D1, <- !(assoc_L (++)). done.
Qed.

(** C3: [CustomerSerializer.create] is all or nothing.  When any step
    raises, the database is what it was before the call.  When it returns,
    the owner has been registered from the owner data (user, default
    preferences, reset token), the customer row with the owner's key and the
    schema name derived from the name has been appended after them, and the
    membership of the owner in the customer's user set is stored; these rows
    are all that changed, unless a stored customer already had the new
    customer's key, which the final save then overwrites.  And it does return whenever the registration of
    the owner succeeds, the name is there, and the database accepts the
    customer row and the membership row. *)
Theorem C3_create_atomic data w :
  (∀ e w', CustomerSerializer_create env data w = (Raise e, w') →
           database w' = database w)
  ∧ (∀ c w',
       CustomerSerializer_create env data w = (Ok c, w') →
       ∃ owner_data name owner w1 pc pt pl t membership,
         cd_owner data = Some owner_data ∧ cd_name data = Some name
         ∧ _create_user env (ud_username owner_data) (ud_email owner_data)
             (ud_password owner_data) w = (Ok owner, w1)
         ∧ customer_name c = name
         ∧ customer_owner_id c = user_id owner
         ∧ customer_schema_name c = _create_schema_name name
         ∧ database w' =
             write_customer c <$>
               (database w
                ++ [RUser owner; RPref pc; RPref pt; RPref pl; RToken t;
                    RCustomer c]
                ++ membership)
         ∧ (membership = [RMember (customer_id c) (user_id owner)]
            ∨ membership = []
              ∧ (customer_id c, user_id owner) ∈ members (database w))
         ∧ (customer_id c, user_id owner) ∈ members (database w')
         ∧ ((∀ c', c' ∈ customers (database w) →
                   customer_id c' ≠ customer_id c) →
            database w' =
              database w
              ++ [RUser owner; RPref pc; RPref pt; RPref pl; RToken t;
                  RCustomer c]
              ++ membership))
  ∧ (∀ owner_data name owner w1,
       cd_owner data = Some owner_data → cd_name data = Some name →
       _create_user env (ud_username owner_data) (ud_email owner_data)
         (ud_password owner_data) w = (Ok owner, w1) →
       (∀ c, customer_name c = name →
             integrity env (database w1) (RCustomer c) = true) →
       (∀ db c, integrity env db (RMember c (user_id owner)) = true) →
       ∃ c w', CustomerSerializer_create env data w = (Ok c, w')).
Proof.
  split; [|split].
  - intros e w' H. by apply atomic_raise in H.
  - intros c w' H. apply atomic_ok in H.
    apply CustomerSerializer_create_body_rows in H
      as (od & name & owner & w1 & pc & pt & pl & t & membership & Hod & Hn
          & Hu & Hid & Hcn & Hco & Hcs & D & Hm).
    exists od, name, owner, w1, pc, pt, pl, t, membership.
    repeat split; try done.
    + rewrite D. apply members_elem.
      destruct Hm as [->|[-> Hin]].
      * apply write_customer_elem; [|done]. rewrite !elem_of_app. right. right.
        apply list_elem_of_here.
      * apply write_customer_elem; [|done]. rewrite !elem_of_app. left.
        by apply members_elem_inv.
    + intros Hnew. rewrite D. apply write_customer_fixes.
      intros c' Hc' E.
      rewrite !elem_of_app in Hc'. destruct Hc' as [Hc'|[Hc'|Hc']].
      * by apply customers_elem, Hnew in Hc'.
      * repeat (apply elem_of_cons in Hc' as [Hc'|Hc']; try discriminate).
        -- by injection Hc' as ->.
        -- by apply elem_of_nil in Hc'.
      * destruct Hm as [->|[-> _]].
        -- apply list_elem_of_singleton in Hc'. discriminate.
        -- by apply elem_of_nil in Hc'.
  - intros od name owner w1 Hod Hn Hu Hcust Hmemb.
    unfold CustomerSerializer_create, atomic, CustomerSerializer_create_body.
    rewrite Hod, Hn. unfold mbind at 1, M_bind at 1. rewrite Hu.
    unfold Customer_objects_create, user_set_add, Customer_save, mbind,
      M_bind, uuid4, entropy, nextval, insert, query, mret, M_ret. simpl.
    rewrite Hcust by done. simpl.
    destruct (bool_decide _); simpl; [eauto|].
    rewrite Hmemb. simpl. eauto.
Qed.

(** *** Preference validation *)

(** What [validate] does once the guard of the locale check has been
    passed and the other two guards send the checks away: it returns the
    data, unless [_currency_symbols] raises. *)
Lemma validate_skipped data :
  (∀ lit, py_is (dict_get data "name") lit = false) →
  validate env data
  = match _currency_symbols env with
    | Ok _ => Ok data
    | Raise e => Raise e
    end.
Proof.
  intros H. unfold validate, _validate_locale, _validate_currency,
    _validate_timezone, _generic_validation.
  destruct (_currency_symbols env); by rewrite !H.
Qed.

(** A string that is not one of the interned constants is never checked,
    whatever its characters. *)
Lemma validate_allocated_name data s :
  data !! "name" = Some (VStr (Allocated s)) →
  validate env data
  = match _currency_symbols env with
    | Ok _ => Ok data
    | Raise e => Raise e
    end.
Proof.
  intros H. apply validate_skipped. intros lit.
  unfold dict_get. by rewrite H.
Qed.

(** When the name is one of the constants itself and the currency symbols
    can be compiled, exactly the check for that name runs. *)
Lemma validate_interned data lit symbols :
  _currency_symbols env = Ok symbols →
  data !! "name" = Some (VStr (Interned lit)) →
  validate env data =
    match data !! "preference" with
    | None => Raise TypeError
    | Some (VDict d) =>
        let pref := dict_get d (literal_chars lit) in
        if py_in pref (enumeration env lit) then Ok data
        else Raise (ValidationError (Invalid (literal_chars lit) pref))
    | Some _ => Raise AttributeError
    end.
Proof.
  intros Hs H. unfold validate, _validate_locale, _validate_currency,
    _validate_timezone, _generic_validation, dict_get, enumeration.
  rewrite Hs, H. simpl.
  destruct lit; simpl;
    (destruct (data !! "preference") as [[| | | | |d]|]; [done..| |done]);
    simpl; by destruct (py_in _ _).
Qed.

(** When the currency symbols cannot be compiled, [validate] raises what
    [_currency_symbols] raises, unless the locale check has raised
    before. *)
Lemma validate_symbols_raise data e :
  _currency_symbols env = Raise e →
  validate env data
  = match _validate_locale env data with
    | Ok _ => Raise e
    | Raise e' => Raise e'
    end.
Proof.
  intros Hs. unfold validate, _validate_currency. rewrite Hs.
  by destruct (_validate_locale env data).
Qed.

Lemma py_is_chars v lit :
  py_is v lit = true → ∃ s, v = VStr s ∧ chars s = literal_chars lit.
Proof.
  destruct v as [| | |[l|]| |]; simpl; try discriminate.
  intros ->%bool_decide_eq_true. eauto.
Qed.

(** For a name that is none of 'locale', 'currency' and 'timezone' no check
    runs, whatever the preference is; [validate] returns the data where
    [_currency_symbols] returns and raises what it raises. *)
Lemma validate_other_names data :
  (∀ s, data !! "name" = Some (VStr s) →
        chars s ∉ ["locale"; "currency"; "timezone"]) →
  validate env data
  = match _currency_symbols env with
    | Ok _ => Ok data
    | Raise e => Raise e
    end.
Proof.
  intros H. apply validate_skipped. intros lit.
  destruct (py_is (dict_get data "name") lit) eqn:E; [|done].
  apply py_is_chars in E as (s & Hv & Hs). exfalso.
  unfold dict_get in Hv. destruct (data !! "name") as [v|] eqn:Hn; [|done].
  simpl in Hv. subst v. apply (H s eq_refl). rewrite Hs.
  destruct lit; simpl; set_solver.
Qed.

(** *** Email validation *)

Lemma chars_strip_obj s : chars (strip_obj s) = PyStr.strip (chars s).
Proof. unfold strip_obj. destruct (decide _) as [E|]; [by rewrite E|done]. Qed.

(** A required, non-null character field yields a non-blank string that
    every validator accepts, or at least one error. *)
Lemma char_field_required validators raw :
  match char_field true false validators raw with
  | Skipped => False
  | Value v => ∃ s, v = VStr s ∧ validators (chars s) = []
  | Errors codes => codes ≠ []
  end.
Proof.
  unfold char_field.
  destruct raw as [[| |z|s| |]|]; try done;
    (destruct (decide _); [done|]);
    (destruct (validators _) eqn:E; [eauto|done]).
Qed.

Lemma char_field_rejects required allow_null validators s :
  validators (PyStr.strip (chars s)) ≠ [] →
  ∃ codes, codes ≠ []
           ∧ char_field required allow_null validators (Some (VStr s))
             = Errors codes.
Proof.
  intros H. unfold char_field. rewrite chars_strip_obj.
  destruct (decide _); [by exists ["blank"]|].
  destruct (validators _) as [|c codes]; [done|]. by exists (c :: codes).
Qed.

Lemma collect_errors name codes acc :
  codes ≠ [] → (collect name (Errors codes) acc).2 ≠ [].
Proof. destruct codes; [done|]. simpl. by destruct (acc.2). Qed.

Lemma collect_keeps_errors name o acc :
  acc.2 ≠ [] → (collect name o acc).2 ≠ [].
Proof. destruct o as [| |codes]; simpl; try done. by destruct (acc.2). Qed.

Lemma finish_raises acc :
  acc.2 ≠ [] → ∃ d, finish acc = Raise (ValidationError d).
Proof. unfold finish. destruct (acc.2); [done|eauto]. Qed.

Lemma finish_ok acc m : finish acc = Ok m → acc.2 = [] ∧ m = acc.1.
Proof. unfold finish. destruct (acc.2); [by intros [= <-]|done]. Qed.

Lemma collect_ok name o acc :
  (collect name o acc).2 = [] →
  acc.2 = [] ∧ match o with Errors codes => codes = [] | _ => True end.
Proof.
  destruct o as [| |codes]; simpl; try done.
  intros [-> E]%app_eq_nil. by destruct codes.
Qed.

Lemma refused_email_codes db e :
  refused_email env db e →
  email_syntax env e ++ unique_email db e ++ max_length 150 e ≠ [].
Proof.
  unfold email_syntax, unique_email, refused_email, emails. intros [H|H].
  - by rewrite H.
  - destruct (validate_email env e); [|done]. by rewrite decide_True.
Qed.

Lemma UserSerializer_to_internal_value_rejects db data s :
  data !! "email" = Some (VStr s) →
  refused_email env db (PyStr.strip (chars s)) →
  ∃ d, UserSerializer_to_internal_value env db data
       = Raise (ValidationError d).
Proof.
  intros He Hr. unfold UserSerializer_to_internal_value, UserSerializer_email.
  rewrite He.
  edestruct char_field_rejects as (codes & Hne & ->);
    [by apply refused_email_codes|].
  by apply finish_raises, collect_keeps_errors, collect_errors.
Qed.

Lemma NestedUserSerializer_to_internal_value_rejects data s :
  data !! "email" = Some (VStr s) →
  validate_email env (PyStr.strip (chars s)) = false →
  ∃ d, NestedUserSerializer_to_internal_value env data
       = Raise (ValidationError d).
Proof.
  intros He Hr.
  unfold NestedUserSerializer_to_internal_value, NestedUserSerializer_email.
  rewrite He.
  edestruct char_field_rejects as (codes & Hne & ->);
    [|by apply finish_raises, collect_errors].
  unfold email_syntax. by rewrite Hr.
Qed.

Lemma UserSerializer_to_internal_value_ok db data validated :
  UserSerializer_to_internal_value env db data = Ok validated →
  ∃ e, ud_email (to_user_data validated) = Some e
       ∧ validate_email env e = true ∧ e ∉ emails db.
Proof.
  unfold UserSerializer_to_internal_value, UserSerializer_email.
  intros [Herr ->]%finish_ok.
  apply collect_ok in Herr as [Herr _].
  apply collect_ok in Herr as [_ Hmail].
  pose proof (char_field_required
    (λ s, email_syntax env s ++ unique_email db s ++ max_length 150 s)
    (data !! "email")) as Hf.
  destruct (char_field true false _ (data !! "email")) as [|v|codes];
    [done| |done].
  destruct Hf as (s & -> & [Hsyn [Huniq _]%app_eq_nil]%app_eq_nil).
  exists (chars s). split; [|split].
  - unfold to_user_data. simpl.
    destruct (char_field false false _ (data !! "password")); simpl;
      by simplify_map_eq.
  - unfold email_syntax in Hsyn. by destruct (validate_email env _).
  - unfold unique_email, emails in *. by destruct (decide _).
Qed.

Lemma emails_snoc db e :
  validate_email env e = true → e ∉ emails db →
  normalize_email env e = e → emails_ok env db →
  Forall (λ e, validate_email env e = true)
         (emails db ++ [normalize_email env e])
  ∧ NoDup (emails db ++ [normalize_email env e]).
Proof.
  intros Hv Hn -> [Hall Hnd]. split.
  - apply Forall_app. split; [done|]. by apply Forall_singleton.
  - apply NoDup_app. split; [done|]. split; [|apply NoDup_singleton].
    intros x Hx ->%list_elem_of_singleton. done.
Qed.

Lemma _create_user_emails e username password w u w' :
  _create_user env username (Some e) password w = (Ok u, w') →
  emails (database w') = emails (database w) ++ [normalize_email env e].
Proof.
  intros H. apply _create_user_ok in H
    as (raw & w1 & pc & pt & pl & t & _ & _ & _ & _ & He & D & _).
  unfold emails, users. rewrite D, omap_app, fmap_app. simpl. by rewrite He.
Qed.

Lemma adds_checked_email_intro e w w' :
  validate_email env e = true → e ∉ emails (database w) →
  emails (database w') = emails (database w) ++ [normalize_email env e] →
  adds_checked_email env w w'.
Proof.
  intros Hv Hn E. exists e. repeat split; try done.
  - rewrite E. by apply emails_snoc.
  - rewrite E. by apply emails_snoc.
Qed.

Lemma UserSerializer_save_ok data w u w' :
  UserSerializer_save env data w = (Ok u, w') → adds_checked_email env w w'.
Proof.
  unfold UserSerializer_save, mbind, M_bind, query, lift. simpl.
  destruct (UserSerializer_to_internal_value _ _ _) as [validated|] eqn:E;
    [|discriminate].
  apply UserSerializer_to_internal_value_ok in E as (e & He & Hv & Hn).
  intros H%atomic_ok. rewrite He in H.
  apply _create_user_emails in H. by eapply adds_checked_email_intro.
Qed.

Lemma CustomerSerializer_to_internal_value_ok db data validated :
  CustomerSerializer_to_internal_value env db data = Ok validated →
  ∃ od d, data !! "owner" = Some (VDict od)
          ∧ UserSerializer_to_internal_value env db od = Ok d
          ∧ cd_owner validated = Some (to_user_data d).
Proof.
  unfold CustomerSerializer_to_internal_value.
  destruct (data !! "owner") as [[| | | | |od]|];
    try (destruct (char_field _ _ _ _); discriminate).
  destruct (UserSerializer_to_internal_value env db od) as [d|e] eqn:E.
  - destruct (char_field _ _ _ _); try discriminate.
    intros [= <-]. by exists od, d.
  - destruct (char_field _ _ _ _); try discriminate;
      destruct e as [[]| | | | | | | | |]; discriminate.
Qed.

Lemma CustomerSerializer_to_internal_value_rejects db data od s :
  data !! "owner" = Some (VDict od) →
  od !! "email" = Some (VStr s) →
  refused_email env db (PyStr.strip (chars s)) →
  ∃ d, CustomerSerializer_to_internal_value env db data
       = Raise (ValidationError d).
Proof.
  intros Ho He Hr. unfold CustomerSerializer_to_internal_value. rewrite Ho.
  destruct (UserSerializer_to_internal_value_rejects db od s He Hr)
    as (d & ->).
  destruct (char_field _ _ _ _); destruct d; eauto.
Qed.

Lemma CustomerSerializer_save_ok data w c w' :
  CustomerSerializer_save env data w = (Ok c, w') → adds_checked_email env w w'.
Proof.
  unfold CustomerSerializer_save, mbind, M_bind, query, lift. simpl.
  destruct (CustomerSerializer_to_internal_value _ _ _) as [validated|] eqn:E;
    [|discriminate].
  apply CustomerSerializer_to_internal_value_ok in E
    as (od & d & _ & Hd & Hown).
  apply UserSerializer_to_internal_value_ok in Hd as (e & He & Hv & Hn).
  intros H%atomic_ok%CustomerSerializer_create_body_ok.
  destruct H as (od' & name & owner & w1 & Hod & _ & Hu & _ & _ & _ & _ & _
                 & _ & Husers).
  rewrite Hown in Hod. injection Hod as <-. rewrite He in Hu.
  apply _create_user_emails in Hu.
  eapply adds_checked_email_intro; [done..|].
  unfold emails in *. by rewrite Husers.
Qed.

(** C6 (as amended): creating a user through [UserSerializer], alone or as
    the owner in [CustomerSerializer], fails with a validation error and
    leaves everything as it was when the (stripped) address is refused by
    [validate_email] or equals the address of a stored user;
    [NestedUserSerializer] refuses the syntactically invalid addresses only.
    A user that [UserSerializer] or [CustomerSerializer] does create stores
    the normalised form of an address that was valid and not yet stored; so
    where normalisation leaves that address as it is, the stored addresses
    remain valid and pairwise distinct. *)
Theorem C6_email_checks :
  (∀ data w s,
     data !! "email" = Some (VStr s) →
     refused_email env (database w) (PyStr.strip (chars s)) →
     ∃ d, UserSerializer_save env data w = (Raise (ValidationError d), w))
  ∧ (∀ data od w s,
       data !! "owner" = Some (VDict od) →
       od !! "email" = Some (VStr s) →
       refused_email env (database w) (PyStr.strip (chars s)) →
       ∃ d, CustomerSerializer_save env data w = (Raise (ValidationError d), w))
  ∧ (∀ data w s,
       data !! "email" = Some (VStr s) →
       validate_email env (PyStr.strip (chars s)) = false →
       ∃ d, NestedUserSerializer_save env data w
            = (Raise (ValidationError d), w))
  ∧ (∀ data w u w',
       UserSerializer_save env data w = (Ok u, w') → adds_checked_email env w w')
  ∧ (∀ data w c w',
       CustomerSerializer_save env data w = (Ok c, w') →
       adds_checked_email env w w').
Proof.
  split; [|split; [|split; [|split]]].
  - intros data w s He Hr.
    destruct (UserSerializer_to_internal_value_rejects _ _ _ He Hr) as (d & E).
    exists d. unfold UserSerializer_save, mbind, M_bind, query, lift. simpl.
    by rewrite E.
  - intros data od w s Ho He Hr.
    destruct (CustomerSerializer_to_internal_value_rejects _ _ _ _ Ho He Hr)
      as (d & E).
    exists d. unfold CustomerSerializer_save, mbind, M_bind, query, lift.
    simpl. by rewrite E.
  - intros data w s He Hr.
    destruct (NestedUserSerializer_to_internal_value_rejects _ _ He Hr)
      as (d & E).
    exists d. unfold NestedUserSerializer_save, mbind, M_bind, lift.
    by rewrite E.
  - apply UserSerializer_save_ok.
  - apply CustomerSerializer_save_ok.
Qed.

End Properties.

(** ** The migration *)

(** C7: the migration consists of exactly three operations on
    [userpreference]: the default ordering by [name], the nullable column
    [description] of at most 255 characters, and the column [name] of at
    most 255 characters whose default is a call of [uuid.uuid4].  Applied to
    a project state with that model, it appends these two columns, sets the
    ordering and changes nothing else. *)
Theorem C7_migration st m :
  st !! "userpreference" = Some m →
  filter is_add_field operations
    = [ AddField "userpreference" "description"
          {| field_class := "CharField"; field_max_length := Some 255;
             field_null := true; field_default := NOT_PROVIDED |};
        AddField "userpreference" "name"
          {| field_class := "CharField"; field_max_length := Some 255;
             field_null := false; field_default := Callable "uuid.uuid4" |} ]
  ∧ filter (λ op, ¬ is_add_field op) operations
    = [ AlterModelOptions "userpreference" {[ "ordering" := ["name"] ]} ]
  ∧ length operations = 3
  ∧ apply_all operations st
    = Some (<["userpreference" :=
               {| columns :=
                    columns m
                    ++ [ ("description", CharField 255 true NOT_PROVIDED);
                         ("name", CharField 255 false (Callable "uuid.uuid4")) ];
                  ordering := ["name"] |}]> st).
Proof.
  intros Hm. repeat split.
  unfold operations, apply_all, apply. rewrite Hm. simpl.
  rewrite lookup_insert_eq. simpl. rewrite lookup_insert_eq. simpl.
  rewrite !insert_insert_eq, <- (assoc_L (++)). done.
Qed.

(** ** The properties at concrete inputs *)

(** C1, as first stated, fails: the underscore is a word character, and it
    is removed from the schema name all the same. *)
Lemma C1_counterexample :
  ¬ (∀ env data w c w',
       CustomerSerializer_create env data w = (Ok c, w') →
       ∀ name, cd_name data = Some name →
               customer_schema_name c = nonword_stripped_lowercased name).
Proof.
  intros H.
  destruct (CustomerSerializer_create Demo.env big_corp Demo.empty_world)
    as [[c|e] w'] eqn:E.
  - specialize (H _ _ _ _ _ E _ eq_refl).
    vm_compute in E. injection E as <- <-. vm_compute in H. discriminate H.
  - vm_compute in E. discriminate E.
Qed.

Lemma C1_schema_name_witness :
  ∃ c w',
    CustomerSerializer_create Demo.env big_corp Demo.empty_world = (Ok c, w')
    ∧ ∃ name,
        cd_name big_corp = Some name
        ∧ customer_name c = name
        ∧ customer_schema_name c
          = PyStr.lower (PyStr.str_filter kept_in_schema_name name)
        ∧ RCustomer c ∈ database w'.
Proof.
  eexists _, _. split; [vm_compute; reflexivity|].
  apply (C1_schema_name Demo.env big_corp Demo.empty_world).
  vm_compute; reflexivity.
Defined.

(** C2 at a failing input: a currency preference as it arrives in a request
    names no valid currency, and [validate] accepts it. *)
Theorem C2_unchecked_currency :
  dict_get currency_request "name" = VStr (Allocated "currency")
  ∧ (∃ symbols, _currency_symbols Demo.env = Ok symbols ∧ "LOL" ∉ symbols)
  ∧ validate Demo.env currency_request = Ok currency_request.
Proof.
  split; [reflexivity|]. split.
  - eexists. split; [vm_compute; reflexivity|]. by_computation.
  - rewrite (validate_allocated_name Demo.env currency_request "currency")
      by reflexivity.
    reflexivity.
Qed.

(** The same data with the name taken from the program text is rejected. *)
Example C2_checked_when_interned :
  validate Demo.env
    (<["name" := VStr (Interned LitCurrency)]> currency_request)
  = Raise (ValidationError (Invalid "currency" (VStr (Allocated "LOL")))).
Proof. vm_compute. reflexivity. Qed.

Lemma C4_registration_rows_witness :
  ∃ u w',
    _create_user Demo.env (Some "alice") (Some "alice@Example.COM") None
      Demo.empty_world = (Ok u, w')
    ∧ ∃ pc pt pl t,
        database w' = [RUser u; RPref pc; RPref pt; RPref pl; RToken t]
        ∧ token_user_id t = user_id u.
Proof.
  eexists _, _. split; [vm_compute; reflexivity|].
  edestruct (C4_registration_rows Demo.env (Some "alice")
               (Some "alice@Example.COM") None Demo.empty_world)
    as (pc & pt & pl & t & D & _ & _ & _ & Ht & _);
    [vm_compute; reflexivity|].
  exists pc, pt, pl, t. split; [exact D|exact Ht].
Defined.

Lemma C5_login_email_witness :
  ∃ u w',
    _create_user Demo.env (Some "alice") (Some "alice@Example.COM") None
      Demo.empty_world = (Ok u, w')
    ∧ ∃ t, outbox w' =
             [ {| mail_username := Some "alice";
                  mail_email := Some "alice@Example.COM";
                  mail_user_uuid := uuid_str (user_uuid u);
                  mail_token := uuid_str (token_token t) |} ].
Proof.
  eexists _, _. split; [vm_compute; reflexivity|].
  edestruct (C5_login_email Demo.env (Some "alice")
               (Some "alice@Example.COM") None Demo.empty_world)
    as (t & name & _ & _ & _ & _ & _ & O);
    [vm_compute; reflexivity|].
  exists t. exact O.
Defined.

(** C5, as first stated, fails: the mailer gets the address as it was passed
    in, the created user holds it normalised. *)
Lemma C5_counterexample :
  ¬ (∀ env username email password w u w',
       _create_user env username email password w = (Ok u, w') →
       ∃ t, outbox w' =
              outbox w ++ [ {| mail_username := Some (user_username u);
                               mail_email := Some (user_email u);
                               mail_user_uuid := uuid_str (user_uuid u);
                               mail_token := uuid_str (token_token t) |} ]).
Proof.
  intros H.
  destruct (_create_user Demo.env (Some "alice") (Some "alice@Example.COM")
              None Demo.empty_world) as [[u|e] w'] eqn:E.
  - destruct (H _ _ _ _ _ _ _ E) as (t & Ht).
    vm_compute in E. injection E as <- <-. simpl in Ht.
    injection Ht as _ Hmail _. discriminate Hmail.
  - vm_compute in E. discriminate E.
Qed.

Lemma C3_create_atomic_witness :
  (∃ c w',
     CustomerSerializer_create Demo.env big_corp Demo.empty_world = (Ok c, w')
     ∧ customer_schema_name c = _create_schema_name "Big_Corp, Inc."
     ∧ (customer_id c, customer_owner_id c) ∈ members (database w'))
  ∧ database (CustomerSerializer_create Demo.env big_corp_again
                with_big_corp).2
    = database with_big_corp.
Proof.
  destruct (C3_create_atomic Demo.env big_corp Demo.empty_world)
    as (_ & Hrows & Hreturns).
  split.
  - destruct (_create_user Demo.env (Some "bob") (Some "bob@example.com")
                (Some "s3cret") Demo.empty_world) as [[owner|e] w1] eqn:E.
    + destruct (Hreturns Demo.bob "Big_Corp, Inc." owner w1 eq_refl eq_refl E)
        as (c & w' & Hc).
      * intros c Hc. vm_compute in E. injection E as <- <-. reflexivity.
      * intros db c. reflexivity.
      * exists c, w'. split; [exact Hc|].
        destruct (Hrows c w' Hc)
          as (od & name & o & w2 & pc & pt & pl & t & membership & _ & Hn & _
              & _ & Ho & Hs & _ & _ & Hm & _).
        injection Hn as <-. rewrite Ho. split; [exact Hs|exact Hm].
    + vm_compute in E. discriminate E.
  - destruct (CustomerSerializer_create Demo.env big_corp_again with_big_corp)
      as [[c|e] w'] eqn:E.
    + vm_compute in E. discriminate E.
    + destruct (C3_create_atomic Demo.env big_corp_again with_big_corp)
        as (Hraise & _).
      exact (Hraise e w' E).
Defined.

Lemma C8_password_witness :
  ∃ u w',
    _create_user Demo.env (Some "alice") (Some "alice@Example.COM") (Some "")
      Demo.empty_world = (Ok u, w')
    ∧ ∃ raw,
        user_password u = make_password Demo.env raw
        ∧ String.length raw = 10
        ∧ PyStr.str_forall (λ c, PyStr.str_mem c choices) raw = true.
Proof.
  eexists _, _. split; [vm_compute; reflexivity|].
  edestruct (C8_password Demo.env (Some "alice")
               (Some "alice@Example.COM") (Some "") Demo.empty_world)
    as (raw & w1 & _ & Hp & Hl & Hc);
    [vm_compute; reflexivity|].
  exists raw. split; [exact Hp|]. split; [exact Hl|exact Hc].
Defined.

(** A second customer of the same name is refused by the database after its
    owner has been written; nothing of the call remains. *)
Example C3_rolled_back :
  let w := (CustomerSerializer_create Demo.env big_corp Demo.empty_world).2 in
  let again := {| cd_name := Some "Big_Corp, Inc.";
                  cd_owner := Some Demo.alice |} in
  (CustomerSerializer_create Demo.env again w).1 = Raise IntegrityError
  ∧ database (CustomerSerializer_create Demo.env again w).2 = database w
  ∧ length (database (CustomerSerializer_create_body Demo.env again w).2)
    = length (database w) + 5.
Proof. vm_compute. repeat split. Qed.

(** C6, as first stated, fails: [NestedUserSerializer] has no uniqueness
    validator and accepts the address of a stored user. *)
Lemma C6_counterexample :
  ¬ (∀ env data w s,
       data !! "email" = Some (VStr s) →
       PyStr.strip (chars s) ∈ user_email <$> users (database w) →
       is_validation_error (NestedUserSerializer_save env data w).1 = true).
Proof.
  intros H.
  specialize (H Demo.env second_alice with_alice
                (Allocated "alice@example.com") eq_refl).
  assert (PyStr.strip (chars (Allocated "alice@example.com"))
          ∈ user_email <$> users (database with_alice)) as Hin.
  { by_computation. }
  specialize (H Hin). vm_compute in H. discriminate H.
Qed.

Lemma C6_email_checks_witness :
  refused_email Demo.env (database with_alice) "alice@example.com"
  ∧ ∃ d, UserSerializer_save Demo.env second_alice with_alice
         = (Raise (ValidationError d), with_alice).
Proof.
  assert (refused_email Demo.env (database with_alice) "alice@example.com")
    as Hr.
  { right. by_computation. }
  split; [exact Hr|].
  destruct (C6_email_checks Demo.env) as (Hreject & _).
  exact (Hreject second_alice with_alice (Allocated "alice@example.com")
           eq_refl Hr).
Defined.

(** Why the last part of C6 asks that normalisation leave the address as it
    is: with Django's normalisation of the domain, an address that differs
    from a stored one in the case of its domain passes the uniqueness
    validator and is stored equal to it. *)
Example normalised_duplicate :
  let data : gmap string pyval :=
    <["username" := VStr (Allocated "alice2")]>
    (<["email" := VStr (Allocated "alice@EXAMPLE.com")]> ∅) in
  emails (database (UserSerializer_save Demo.env data with_alice).2)
  = ["alice@example.com"; "alice@example.com"].
Proof. vm_compute. reflexivity. Qed.

Lemma C7_migration_witness :
  old_state !! "userpreference"
  = Some {| columns := [("uuid", {| field_class := "UUIDField";
                                   field_max_length := None;
                                   field_null := false;
                                   field_default := Callable "uuid.uuid4" |})];
            ordering := [] |}
  ∧ (columns <$> (apply_all operations old_state ≫= (.!! "userpreference")))
    = Some [ ("uuid", {| field_class := "UUIDField";
                        field_max_length := None;
                        field_null := false;
                        field_default := Callable "uuid.uuid4" |});
             ("description", CharField 255 true NOT_PROVIDED);
             ("name", CharField 255 false (Callable "uuid.uuid4")) ].
Proof.
  split; [reflexivity|].
  destruct (C7_migration old_state _ eq_refl) as (_ & _ & _ & ->).
  reflexivity.
Defined.

(** C9: [validate] has outcomes that are neither a validation error nor
    the data.  With the name constant itself and a preference that is no
    dictionary it ends in an [AttributeError]; with the preference missing,
    in a [TypeError]; and where the locale read at the start of
    [_currency_symbols] cannot be set again, in a [locale.Error], whatever
    the data. *)
Theorem C9_other_outcomes :
  validate Demo.env (locale_data (VStr (Allocated "en_US.UTF-8")))
  = Raise AttributeError
  ∧ validate Demo.env (<["name" := VStr (Interned LitLocale)]> ∅)
    = Raise TypeError
  ∧ validate locale_missing theme_request = Raise LocaleError.
Proof. repeat split; vm_compute; reflexivity. Qed.

(** C10: data under a name that is none of the three is still refused where
    the monetary locale cannot be restored: [_currency_symbols] is evaluated
    before the guard on the name and raises [locale.Error]. *)
Theorem C10_locale_error :
  dict_get theme_request "name" = VStr (Allocated "theme")
  ∧ _currency_symbols locale_missing = Raise LocaleError
  ∧ validate locale_missing theme_request = Raise LocaleError.
Proof. repeat split; vm_compute; reflexivity. Qed.

(** Where the currency symbols can be compiled, the same data is accepted. *)
Example other_names_accepted_with_symbols :
  validate Demo.env theme_request = Ok theme_request.
Proof.
  rewrite validate_other_names; [reflexivity|].
  intros s Hs. vm_compute in Hs. injection Hs as <-. by_computation.
Qed.

(** * Further properties of the code *)

(** ** Schema names *)

Lemma kept_lower_char c :
  kept_in_schema_name (PyStr.lower_char c) = kept_in_schema_name c.
Proof. by destruct c as [[] [] [] [] [] [] [] []]. Qed.

Lemma lower_char_idemp c :
  PyStr.lower_char (PyStr.lower_char c) = PyStr.lower_char c.
Proof. by destruct c as [[] [] [] [] [] [] [] []]. Qed.

Lemma kept_lowercase_alnum c :
  kept_in_schema_name c = true → lowercase_alnum (PyStr.lower_char c) = true.
Proof. by destruct c as [[] [] [] [] [] [] [] []]. Qed.

Lemma lower_str_filter s :
  PyStr.lower (PyStr.str_filter kept_in_schema_name s)
  = PyStr.str_filter kept_in_schema_name (PyStr.lower s).
Proof.
  induction s as [|c r IH]; simpl; [done|]. rewrite kept_lower_char.
  destruct (kept_in_schema_name c); simpl; by rewrite IH.
Qed.

Lemma lower_idemp s : PyStr.lower (PyStr.lower s) = PyStr.lower s.
Proof.
  induction s as [|c r IH]; simpl; [done|]. by rewrite lower_char_idemp, IH.
Qed.

Lemma str_filter_idemp p s :
  PyStr.str_filter p (PyStr.str_filter p s) = PyStr.str_filter p s.
Proof.
  induction s as [|c r IH]; simpl; [done|].
  destruct (p c) eqn:E; simpl; [|done]. by rewrite E, IH.
Qed.

Lemma lower_app a b :
  PyStr.lower (a +:+ b) = PyStr.lower a +:+ PyStr.lower b.
Proof. induction a as [|c r IH]; simpl; [done|]. by rewrite IH. Qed.

Lemma str_filter_app p a b :
  PyStr.str_filter p (a +:+ b) = PyStr.str_filter p a +:+ PyStr.str_filter p b.
Proof.
  induction a as [|c r IH]; simpl; [done|]. rewrite IH. by destruct (p c).
Qed.

(** X1: for a name of code points up to U+00FF, the schema name is its
    own schema name: deriving twice changes nothing. *)
Theorem schema_name_idempotent name :
  _create_schema_name (_create_schema_name name) = _create_schema_name name.
Proof.
  rewrite !_create_schema_name_filter.
  rewrite (lower_str_filter name), str_filter_idemp.
  by rewrite <- (lower_str_filter name), lower_idemp.
Qed.

(** X2: for a name of code points up to U+00FF, the schema name is never
    longer than the name and consists of alphanumeric characters that
    [str.lower] leaves as they are: no underscore, no punctuation, no space,
    no uppercase letter. *)
Theorem schema_name_alphabet name :
  String.length (_create_schema_name name) ≤ String.length name
  ∧ PyStr.str_forall lowercase_alnum (_create_schema_name name) = true.
Proof.
  rewrite _create_schema_name_filter. split.
  - induction name as [|c r IH]; simpl; [done|].
    destruct (kept_in_schema_name c); simpl; lia.
  - induction name as [|c r IH]; simpl; [done|].
    destruct (kept_in_schema_name c) eqn:E; simpl; [|done].
    by rewrite (kept_lowercase_alnum c E), IH.
Qed.

(** X3: for names of code points up to U+00FF, the schema name of a
    concatenation is the concatenation of the schema names, although a match
    of the pattern may span the seam. *)
Theorem schema_name_app a b :
  _create_schema_name (a +:+ b)
  = _create_schema_name a +:+ _create_schema_name b.
Proof.
  rewrite !_create_schema_name_filter. by rewrite str_filter_app, lower_app.
Qed.

(** X4: names of code points up to U+00FF that are equal up to case have
    the same schema name. *)
Theorem schema_name_ignores_case a b :
  PyStr.lower a = PyStr.lower b →
  _create_schema_name a = _create_schema_name b.
Proof.
  intros E. rewrite !_create_schema_name_filter, !lower_str_filter.
  by rewrite E.
Qed.

Lemma schema_name_ignores_case_witness :
  PyStr.lower "Big Corp" = PyStr.lower "BIG CORP"
  ∧ _create_schema_name "Big Corp" = _create_schema_name "BIG CORP".
Proof.
  assert (PyStr.lower "Big Corp" = PyStr.lower "BIG CORP") as E
    by (vm_compute; reflexivity).
  split; [exact E|]. exact (schema_name_ignores_case "Big Corp" "BIG CORP" E).
Defined.

(** X5: the schema name is empty exactly when the name has no character
    outside the class [[\W_]]: the empty name, or punctuation, spaces and
    underscores only. *)
Theorem schema_name_empty_iff name :
  _create_schema_name name = ""
  ↔ PyStr.str_forall schema_class name = true.
Proof.
  rewrite _create_schema_name_filter.
  induction name as [|c r IH]; simpl; [done|].
  assert (schema_class c = negb (kept_in_schema_name c)) as ->.
  { unfold schema_class, kept_in_schema_name, PyStr.is_nonword.
    by destruct (PyStr.is_word c), (Ascii.eqb c "_"). }
  destruct (kept_in_schema_name c); simpl; [|done].
  split; discriminate.
Qed.

(** ** Stripping *)

Lemma rstrip_idemp s : PyStr.rstrip (PyStr.rstrip s) = PyStr.rstrip s.
Proof.
  induction s as [|c r IH]; simpl; [done|].
  destruct (PyStr.rstrip r) as [|d r'] eqn:E.
  - destruct (PyStr.is_space c) eqn:Hc; simpl; [done|]. by rewrite Hc.
  - simpl in *. by rewrite IH.
Qed.

Lemma rstrip_head c r :
  PyStr.is_space c = false → ∃ r', PyStr.rstrip (String c r) = String c r'.
Proof.
  intros Hc. simpl. destruct (PyStr.rstrip r); [rewrite Hc|]; eauto.
Qed.

Lemma skip_space_head s :
  match PyStr.skip_class PyStr.is_space s with
  | EmptyString => True
  | String c _ => PyStr.is_space c = false
  end.
Proof.
  induction s as [|c r IH]; simpl; [done|].
  destruct (PyStr.is_space c) eqn:E; [done|]. simpl. done.
Qed.

Lemma strip_idemp s : PyStr.strip (PyStr.strip s) = PyStr.strip s.
Proof.
  unfold PyStr.strip. pose proof (skip_space_head s) as H.
  destruct (PyStr.skip_class PyStr.is_space s) as [|c r]; [done|].
  destruct (rstrip_head c r H) as (r' & E). rewrite E. simpl PyStr.skip_class.
  rewrite H, <- E. apply rstrip_idemp.
Qed.

Section Further.

Context (env : environment).

#[local] Hint Resolve quiet_entropy quiet_nextval quiet_uuid4 quiet_ret
  quiet_choose_password : quiet.

(** ** Currency symbols *)

Lemma _currency_symbols_fold (l : list string) (acc : gset string) x :
  x ∈ foldl (λ (symbols : gset string) loc,
               match int_curr_symbol env loc with
               | Some currency =>
                   if decide (currency = "") then symbols
                   else {[ PyStr.strip currency ]} ∪ symbols
               | None => symbols
               end) acc l
  ↔ x ∈ acc
    ∨ ∃ loc currency, loc ∈ l ∧ int_curr_symbol env loc = Some currency
                      ∧ currency ≠ "" ∧ x = PyStr.strip currency.
Proof.
  revert acc. induction l as [|loc l IH]; intros acc; simpl.
  - split; [by left|]. intros [H|(? & ? & H & _)]; [done|].
    by apply elem_of_nil in H.
  - rewrite IH. split.
    + intros [H|(loc' & cur & Hl & ?)].
      * destruct (int_curr_symbol env loc) as [cur|] eqn:E; [|by left].
        destruct (decide (cur = "")); [by left|].
        apply elem_of_union in H as [->%elem_of_singleton|H]; [|by left].
        right. exists loc, cur. split; [apply list_elem_of_here|done].
      * right. exists loc', cur. split; [by apply list_elem_of_further|done].
    + intros [H|(loc' & cur & Hl & E & Hne & ->)].
      * left. destruct (int_curr_symbol env loc) as [cur|]; [|done].
        destruct (decide _); [done|]. apply elem_of_union. by right.
      * apply elem_of_cons in Hl as [->|Hl].
        -- left. rewrite E. rewrite decide_False by done.
           apply elem_of_union. left. by apply elem_of_singleton.
        -- right. by exists loc', cur.
Qed.

(** X6: [_currency_symbols] raises a [ValueError] when the current locale
    cannot be read, and a [locale.Error] when, after the loop, the locale
    read at the start cannot be set again.  Otherwise it returns exactly the
    stripped international currency symbols of the locale aliases whose
    monetary conventions load and whose symbol is not the empty string; each
    occurs once, and all are free of surrounding whitespace.  (A symbol of
    whitespace only passes the test and is listed as the empty string.) *)
Theorem _currency_symbols_spec :
  match _currency_symbols env with
  | Ok symbols =>
      (∃ current, getlocale env = Some current
                  ∧ setlocale_monetary env current = true)
      ∧ (∀ x, x ∈ symbols
              ↔ ∃ loc currency,
                  loc ∈ locale_alias_values env
                  ∧ int_curr_symbol env loc = Some currency
                  ∧ currency ≠ "" ∧ x = PyStr.strip currency)
      ∧ NoDup symbols
      ∧ (∀ x, x ∈ symbols → PyStr.strip x = x)
  | Raise e =>
      (getlocale env = None ∧ e = ValueError)
      ∨ (∃ current, getlocale env = Some current
                    ∧ setlocale_monetary env current = false
                    ∧ e = LocaleError)
  end.
Proof.
  unfold _currency_symbols.
  destruct (getlocale env) as [current|]; [|by left].
  destruct (setlocale_monetary env current) eqn:R; [|right; by exists current].
  assert (∀ x, x ∈ elements
                 (foldl (λ (symbols : gset string) loc,
                           match int_curr_symbol env loc with
                           | Some currency =>
                               if decide (currency = "") then symbols
                               else {[ PyStr.strip currency ]} ∪ symbols
                           | None => symbols
                           end) ∅ (locale_alias_values env))
        ↔ ∃ loc currency,
            loc ∈ locale_alias_values env
            ∧ int_curr_symbol env loc = Some currency
            ∧ currency ≠ "" ∧ x = PyStr.strip currency) as Hspec.
  { intros x. rewrite elem_of_elements.
    rewrite _currency_symbols_fold. split; [|by right].
    intros [H|H]; [|done]. by apply not_elem_of_empty in H. }
  split; [by exists current|]. split; [exact Hspec|]. split.
  - apply NoDup_elements.
  - intros x (loc & cur & _ & _ & _ & ->)%Hspec. apply strip_idemp.
Qed.

(** ** Preference validation under a constant name *)

(** X7: when the name is one of the three constants itself and the
    preference is a dictionary: where [_currency_symbols] returns,
    [validate] accepts the data exactly when the dictionary holds, under
    that name, a string of the enumeration of that name, and any other
    value, also a missing one, is reported as invalid; where
    [_currency_symbols] raises, [validate] raises the same, unless the name
    is 'locale' and the locale check has reported the value as invalid
    before. *)
Theorem validate_constant_name data lit d :
  data !! "name" = Some (VStr (Interned lit)) →
  data !! "preference" = Some (VDict d) →
  (∀ symbols,
     _currency_symbols env = Ok symbols →
     (validate env data = Ok data
      ↔ ∃ s, d !! literal_chars lit = Some (VStr s)
             ∧ chars s ∈ enumeration env lit)
     ∧ (validate env data = Ok data
        ∨ validate env data
          = Raise (ValidationError
                     (Invalid (literal_chars lit)
                              (dict_get d (literal_chars lit))))))
  ∧ (∀ e,
       _currency_symbols env = Raise e →
       validate env data
       = if bool_decide (lit = LitLocale)
            && negb (py_in (dict_get d "locale") (locale_alias_values env))
         then Raise (ValidationError (Invalid "locale" (dict_get d "locale")))
         else Raise e).
Proof.
  intros Hn Hp. split.
  - intros symbols Hs.
    rewrite (validate_interned env data lit symbols Hs Hn), Hp. simpl.
    unfold dict_get, py_in.
    destruct (d !! literal_chars lit) as [[| | |s| |]|] eqn:E; simpl;
      try (split; [split; [discriminate|by intros (? & [=] & _)]|by right]).
    destruct (bool_decide (chars s ∈ enumeration env lit)) eqn:B.
    + apply bool_decide_eq_true in B. split; [|by left].
      split; [intros _; by exists s|done].
    + apply bool_decide_eq_false in B. split; [|by right].
      split; [discriminate|]. by intros (? & [= <-] & ?).
  - intros e He. rewrite (validate_symbols_raise env data e He).
    unfold _validate_locale, _generic_validation, dict_get.
    rewrite Hn, Hp. simpl.
    destruct lit; simpl; try done.
    by destruct (py_in _ _).
Qed.

(** X8: under a constant name and where [_currency_symbols] returns, a
    preference dictionary without an entry for that name is reported as
    invalid with the value [None], while data without any 'preference' entry
    end in a [TypeError].  Under the constant 'locale' both happen also
    where [_currency_symbols] raises: the locale check comes first. *)
Theorem validate_missing_entries data lit :
  data !! "name" = Some (VStr (Interned lit)) →
  (lit = LitLocale ∨ ∃ symbols, _currency_symbols env = Ok symbols) →
  (∀ d, data !! "preference" = Some (VDict d) →
        d !! literal_chars lit = None →
        validate env data
        = Raise (ValidationError (Invalid (literal_chars lit) VNone)))
  ∧ (data !! "preference" = None → validate env data = Raise TypeError).
Proof.
  intros Hn Hs.
  destruct (_currency_symbols env) as [symbols|e] eqn:E.
  - rewrite (validate_interned env data lit symbols E Hn). split.
    + intros d -> Hd. simpl. unfold dict_get. by rewrite Hd.
    + by intros ->.
  - destruct Hs as [->|[? [=]]].
    rewrite (validate_symbols_raise env data e E).
    unfold _validate_locale, _generic_validation, dict_get.
    rewrite Hn. simpl. split.
    + intros d -> Hd. simpl. unfold dict_get. by rewrite Hd.
    + by intros ->.
Qed.

(** ** Creating and updating a preference *)

Lemma get_user_by_username_raise name w e w' :
  get_user_by_username name w = (Raise e, w') →
  w' = w
  ∧ match filter (λ u, user_username u = name) (users (database w)) with
    | [] => e = DoesNotExist
    | [_] => False
    | _ => e = MultipleObjectsReturned
    end.
Proof.
  unfold get_user_by_username, mbind, M_bind, query. simpl.
  destruct (filter _ _) as [|u1 [|u2 l]]; try discriminate;
    by intros [= <- <-].
Qed.

(** X9: [UserPreferenceSerializer.create] either appends one preference
    row, owned by the one stored user that carries the user name of the
    user in the context, or raises and leaves the database as it was; it
    raises [DoesNotExist] when no stored user carries that name. *)
Theorem UserPreferenceSerializer_create_spec user validated w :
  match UserPreferenceSerializer_create env user validated w with
  | (Ok p, w') =>
      database w' = database w ++ [RPref p]
      ∧ (∃ u, filter (λ u, user_username u = user_username user)
                     (users (database w)) = [u]
              ∧ pref_user_id p = user_id u)
      ∧ pref_preference p = default (VDict ∅) (validated !! "preference")
  | (Raise e, w') =>
      database w' = database w
      ∧ (filter (λ u, user_username u = user_username user)
                (users (database w)) = [] → e = DoesNotExist)
  end.
Proof.
  destruct (UserPreferenceSerializer_create env user validated w)
    as [[p|e] w'] eqn:H.
  - apply atomic_ok in H. unfold UserPreferenceSerializer_create in H.
    apply bind_ok in H as (u & w1 & Hget & H).
    apply get_user_by_username_ok in Hget as [-> Hf].
    apply bind_quiet in H as (uuid & wa & _ & Da & _ & H);
      [|eauto with quiet].
    apply bind_quiet in H as (name & wb & _ & Db & _ & H).
    2:{ destruct (validated !! "name") as [[| | |s| |]|];
          try apply quiet_ret;
          (apply quiet_bind; [apply quiet_uuid4|intros; apply quiet_ret]). }
    apply bind_quiet in H as (pk & wc & _ & Dc & _ & H);
      [|eauto with quiet].
    apply bind_ok in H as (? & wd & Hi & H). returned H.
    apply insert_ok in Hi as [Di _]. simpl.
    split; [congruence|]. split; [by exists u|done].
  - split; [by apply atomic_raise in H|].
    intros Hnone. unfold UserPreferenceSerializer_create, atomic in H.
    unfold mbind at 1, M_bind at 1 in H.
    destruct (get_user_by_username _ w) as [[u|e'] w1] eqn:Hget.
    + apply get_user_by_username_ok in Hget as [_ Hf]. congruence.
    + apply get_user_by_username_raise in Hget as [_ Hm].
      rewrite Hnone in Hm. by injection H as <- _.
Qed.

Lemma users_write_preference p (db : list row) :
  users (write_preference p <$> db) = users db.
Proof.
  unfold users. induction db as [|r db IH]; [done|]. csimpl. rewrite IH.
  destruct r; simpl; try done. by destruct (decide _).
Qed.

Lemma UserPreference_save_ok p w x w' :
  UserPreference_save env p w = (Ok x, w') →
  RPref p ∈ database w'
  ∧ users (database w') = users (database w)
  ∧ outbox w' = outbox w
  ∧ (pref_id p ∈ pref_id <$> preferences (database w) →
     database w' = write_preference p <$> database w).
Proof.
  unfold UserPreference_save. destruct (bool_decide _) eqn:B.
  - apply bool_decide_eq_true in B. intros [= _ <-]. simpl.
    split; [|split; [|done]].
    + apply list_elem_of_fmap in B as (p' & Hid & Hp').
      apply list_elem_of_omap in Hp' as ([] & Hr & [= ->]).
      apply list_elem_of_fmap. exists (RPref p'). split; [|done].
      unfold write_preference. by rewrite decide_True.
    + apply users_write_preference.
  - apply bool_decide_eq_false in B. intros [D O]%insert_ok.
    rewrite D. split; [|split; [|done]].
    + apply elem_of_app. right. apply list_elem_of_here.
    + unfold users. rewrite omap_app. simpl. by rewrite app_nil_r.
Qed.

(** X10: a successful [UserPreferenceSerializer.update] stores the instance
    under its old key and uuid, handed to the one stored user that carries
    the user name of the user in the context, whoever owned it before; the
    entries the validated data lack keep the values of the instance; no user
    row changes and no mail is sent. *)
Theorem UserPreferenceSerializer_update_ok user instance validated w p w' :
  UserPreferenceSerializer_update env user instance validated w = (Ok p, w') →
  pref_id p = pref_id instance
  ∧ pref_uuid p = pref_uuid instance
  ∧ (∃ u, filter (λ u, user_username u = user_username user)
                 (users (database w)) = [u]
          ∧ pref_user_id p = user_id u)
  ∧ (validated !! "name" = None → pref_name p = pref_name instance)
  ∧ (validated !! "description" = None →
     pref_description p = pref_description instance)
  ∧ (validated !! "preference" = None →
     pref_preference p = pref_preference instance)
  ∧ RPref p ∈ database w'
  ∧ users (database w') = users (database w)
  ∧ outbox w' = outbox w.
Proof.
  unfold UserPreferenceSerializer_update. intros H.
  apply bind_ok in H as (u & w1 & Hget & H).
  apply get_user_by_username_ok in Hget as [-> Hf].
  apply bind_ok in H as (? & w2 & Hs & H). returned H.
  apply UserPreference_save_ok in Hs as (Hin & Hu & Ho & _). simpl.
  repeat split; try done.
  - by exists u.
  - by intros ->.
  - by intros ->.
  - by intros ->.
Qed.

(** X11: [UserPreferenceSerializer.update] fails with [DoesNotExist] and
    changes nothing when no stored user carries the user name of the user in
    the context. *)
Theorem UserPreferenceSerializer_update_unknown_user user instance validated w :
  filter (λ u, user_username u = user_username user) (users (database w)) = [] →
  UserPreferenceSerializer_update env user instance validated w
  = (Raise DoesNotExist, w).
Proof.
  intros Hnone. unfold UserPreferenceSerializer_update.
  unfold mbind at 1, M_bind at 1.
  destruct (get_user_by_username (user_username user) w) as [[u|e] w1] eqn:Hget.
  - apply get_user_by_username_ok in Hget as [_ Hf]. congruence.
  - apply get_user_by_username_raise in Hget as [-> Hm].
    rewrite Hnone in Hm. by subst.
Qed.

(** ** Registration: what persists and what is sent *)

Lemma appends_bind {A B} (m : M A) (f : A → M B) :
  appends m → (∀ a, appends (f a)) → appends (m ≫= f).
Proof.
  intros Hm Hf w r w'. unfold mbind, M_bind.
  destruct (m w) as [[a|e] w1] eqn:E.
  - intros H. etrans; [by eapply Hm|by eapply Hf].
  - intros [= <- <-]. by eapply Hm.
Qed.

Lemma appends_quiet {A} (m : M A) : quiet m → appends m.
Proof.
  intros Hm w r w' H. destruct (Hm w) as (a & w1 & E & D & _).
  rewrite E in H. injection H as <- <-. by rewrite D.
Qed.

Lemma appends_insert r : appends (insert env r).
Proof.
  intros w x w'. unfold insert. destruct (integrity _ _ _).
  - intros [= <- <-]. simpl. by apply prefix_app_r.
  - by intros [= <- <-].
Qed.

Lemma appends_atomic {A} (m : M A) : appends m → appends (atomic m).
Proof.
  intros Hm w r w'. unfold atomic. destruct (m w) as [[a|e] w1] eqn:E.
  - intros [= <- <-]. by eapply Hm.
  - by intros [= <- <-].
Qed.

Lemma appends_raise {A} e : appends (raise e : M A).
Proof. by intros w r w' [= <- <-]. Qed.

Lemma appends_lift {A} (x : result A) : appends (lift x).
Proof. by intros w r w' [= <- <-]. Qed.

Lemma appends_get_user name : appends (get_user_by_username name).
Proof.
  apply appends_bind; [apply appends_quiet, quiet_query|].
  intros [|u [|u' l]]; [apply appends_raise|apply appends_quiet, quiet_ret|
                       apply appends_raise].
Qed.

Lemma appends_mail username email uuid token :
  appends (new_user_login_email env username email uuid token).
Proof.
  intros w r w'. unfold new_user_login_email.
  destruct (mail_delivers _ _); by intros [= <- <-].
Qed.

Create HintDb appends.
#[local] Hint Resolve appends_insert appends_raise appends_lift
  appends_get_user appends_mail : appends.
#[local] Hint Extern 1 (appends (mret _)) =>
  apply appends_quiet, quiet_ret : appends.
#[local] Hint Extern 1 (appends (uuid4 _)) =>
  apply appends_quiet, quiet_uuid4 : appends.
#[local] Hint Extern 1 (appends nextval) =>
  apply appends_quiet, quiet_nextval : appends.
#[local] Hint Extern 1 (appends (choose_password _ _)) =>
  apply appends_quiet, quiet_choose_password : appends.

Ltac appends_steps :=
  repeat first
    [ solve [auto with appends]
    | apply appends_atomic
    | apply appends_bind; [|intros ?] ].

Lemma appends_create_user username email password :
  appends (create_user env username email password).
Proof.
  unfold create_user. destruct username as [[|c name]|]; appends_steps.
Qed.

Lemma appends_UserPreferenceSerializer_create user validated :
  appends (UserPreferenceSerializer_create env user validated).
Proof.
  unfold UserPreferenceSerializer_create. appends_steps.
  destruct (validated !! "name") as [[| | |s| |]|]; appends_steps.
Qed.

Lemma appends_for_each {A B} (f : A → M B) l :
  (∀ a, appends (f a)) → appends (for_each f l).
Proof.
  intros Hf. induction l as [|a l IH]; simpl; [auto with appends|].
  apply appends_bind; [apply Hf|]. intros b.
  apply appends_bind; [exact IH|]. intros bs. auto with appends.
Qed.

Lemma appends__create_default_preferences user :
  appends (_create_default_preferences env user).
Proof.
  apply appends_for_each. intros [lit v]. unfold create_default_preference.
  apply appends_bind; [auto with appends|]. intros validated.
  apply appends_UserPreferenceSerializer_create.
Qed.

Lemma appends_new_reset_token user : appends (new_reset_token env user).
Proof. unfold new_reset_token. appends_steps. Qed.

(** X12: [_create_user] only ever appends rows: whether it returns or
    raises, every row stored before is still there, unchanged and in
    place. *)
Theorem _create_user_appends username email password w r w' :
  _create_user env username email password w = (r, w') →
  database w `prefix_of` database w'.
Proof.
  revert w r w'. change (appends (_create_user env username email password)).
  unfold _create_user.
  apply appends_bind; [auto with appends|]. intros user_pass.
  apply appends_bind; [apply appends_create_user|]. intros user.
  apply appends_bind; [apply appends__create_default_preferences|]. intros _.
  apply appends_bind; [apply appends_new_reset_token|]. intros t.
  apply appends_bind; auto with appends.
Qed.

(** X13: [_create_user] by itself is not all or nothing: once the user
    manager has stored the user, the row stays in the database also when a
    later step (a default preference, the reset token, the mail) raises.
    The rollback is that of the serializers that call it. *)
Theorem _create_user_keeps_user username email password w raw w1 u w2 r w' :
  choose_password env password w = (Ok raw, w1) →
  create_user env username email raw w1 = (Ok u, w2) →
  _create_user env username email password w = (r, w') →
  (database w ++ [RUser u]) `prefix_of` database w'.
Proof.
  intros Hp Hu H. unfold _create_user in H.
  unfold mbind at 1, M_bind at 1 in H. rewrite Hp in H.
  unfold mbind at 1, M_bind at 1 in H. rewrite Hu in H.
  destruct (choose_password_run env password w) as (? & ? & Hp' & _ & D0 & _).
  rewrite Hp in Hp'. injection Hp' as <- <-.
  apply create_user_ok in Hu as (D1 & _). rewrite <- D0, <- D1.
  revert H. generalize w2 r w'.
  change (appends (_create_default_preferences env u ≫= λ _,
            reset_token ← new_reset_token env u;
            new_user_login_email env username email
              (uuid_str (user_uuid u)) (uuid_str (token_token reset_token));;
            mret u)).
  apply appends_bind; [apply appends__create_default_preferences|]. intros _.
  apply appends_bind; [apply appends_new_reset_token|]. intros t.
  apply appends_bind; auto with appends.
Qed.

(** X14: [UserSerializer.create] is all or nothing: it returns after
    appending the user, the three default preferences and the reset token
    and after one call of the mailer, or it raises and the database is what
    it was before the call. *)
Theorem UserSerializer_create_spec validated_data w :
  match UserSerializer_create env validated_data w with
  | (Ok u, w') =>
      ∃ pc pt pl t,
        database w' =
          database w ++ [RUser u; RPref pc; RPref pt; RPref pl; RToken t]
        ∧ outbox w' =
            outbox w ++ [ login_email_for (ud_username validated_data)
                            (ud_email validated_data) u t ]
  | (Raise e, w') => database w' = database w
  end.
Proof.
  destruct (UserSerializer_create env validated_data w) as [[u|e] w'] eqn:H.
  - apply atomic_ok, _create_user_ok in H
      as (_ & _ & pc & pt & pl & t & _ & _ & _ & _ & _ & D & _ & _ & _ & _ & O).
    by exists pc, pt, pl, t.
  - by apply atomic_raise in H.
Qed.

(** ** Customers: missing keys and mail that outlives the rollback *)

Lemma silent_bind {A B} (m : M A) (f : A → M B) :
  silent m → (∀ a, silent (f a)) → silent (m ≫= f).
Proof.
  intros Hm Hf w r w'. unfold mbind, M_bind.
  destruct (m w) as [[a|e] w1] eqn:E.
  - intros H. etrans; [by eapply Hf|by eapply Hm].
  - intros [= <- <-]. by eapply Hm.
Qed.

Lemma silent_quiet {A} (m : M A) : quiet m → silent m.
Proof.
  intros Hm w r w' H. destruct (Hm w) as (a & w1 & E & _ & O).
  rewrite E in H. by injection H as <- <-.
Qed.

Lemma silent_insert r : silent (insert env r).
Proof.
  intros w x w'. unfold insert.
  destruct (integrity _ _ _); by intros [= <- <-].
Qed.

Lemma silent_Customer_objects_create name owner_id schema_name :
  silent (Customer_objects_create env name owner_id schema_name).
Proof.
  unfold Customer_objects_create.
  apply silent_bind; [apply silent_quiet, quiet_uuid4|]. intros uuid.
  apply silent_bind; [apply silent_quiet, quiet_nextval|]. intros pk.
  apply silent_bind; [apply silent_insert|]. intros _.
  apply silent_quiet, quiet_ret.
Qed.

Lemma silent_user_set_add c u : silent (user_set_add env c u).
Proof.
  unfold user_set_add.
  apply silent_bind; [apply silent_quiet, quiet_query|]. intros [|].
  - apply silent_quiet, quiet_ret.
  - apply silent_insert.
Qed.

Lemma silent_Customer_save c : silent (Customer_save c).
Proof. by intros w r w' [= <- <-]. Qed.

(** X15: the mail of [CustomerSerializer.create] is not part of the
    transaction.  When the registration of the owner succeeds and a later
    step raises (the name is missing, the database refuses the customer or
    the membership), the database is rolled back to what it was, owner
    included, and the login mail for that owner has been sent all the
    same. *)
Theorem CustomerSerializer_create_mail_sent data owner_data w u w1 e w' :
  cd_owner data = Some owner_data →
  _create_user env (ud_username owner_data) (ud_email owner_data)
    (ud_password owner_data) w = (Ok u, w1) →
  CustomerSerializer_create env data w = (Raise e, w') →
  database w' = database w
  ∧ ∃ t, outbox w' =
           outbox w ++ [ login_email_for (ud_username owner_data)
                           (ud_email owner_data) u t ].
Proof.
  intros Ho Hu H. split; [by apply atomic_raise in H|].
  pose proof Hu as Hrows. apply _create_user_ok in Hrows
    as (_ & _ & _ & _ & _ & t & _ & _ & _ & _ & _ & _ & _ & _ & _ & _ & O).
  exists t. unfold login_email_for. rewrite <- O.
  unfold CustomerSerializer_create, atomic, CustomerSerializer_create_body in H.
  rewrite Ho in H. unfold mbind at 1, M_bind at 1 in H. rewrite Hu in H.
  destruct (cd_name data) as [name|].
  - match type of H with
    | context [(?m ≫= ?f) w1] =>
        assert (silent (m ≫= f)) as Hs;
          [|destruct ((m ≫= f) w1) as [[c|e'] w2] eqn:E; [done|];
            apply Hs in E; by injection H as _ <-]
    end.
    apply silent_bind; [apply silent_Customer_objects_create|]. intros c.
    apply silent_bind; [apply silent_user_set_add|]. intros _.
    apply silent_bind; [apply silent_Customer_save|]. intros _.
    apply silent_quiet, quiet_ret.
  - unfold raise in H. by injection H as _ <-.
Qed.

(** X16: missing keys of the validated data.  Without 'owner',
    [CustomerSerializer.create] raises [KeyError] at once and nothing has
    happened.  Without 'name', the [KeyError] comes only after the owner has
    been registered: the rows are rolled back, the mail of the registration
    has gone out. *)
Theorem CustomerSerializer_create_missing_keys data w :
  (cd_owner data = None →
   CustomerSerializer_create env data w = (Raise (KeyError "owner"), w))
  ∧ (∀ owner_data u w1,
       cd_owner data = Some owner_data → cd_name data = None →
       _create_user env (ud_username owner_data) (ud_email owner_data)
         (ud_password owner_data) w = (Ok u, w1) →
       ∃ w', CustomerSerializer_create env data w
             = (Raise (KeyError "name"), w')
             ∧ database w' = database w ∧ outbox w' = outbox w1).
Proof.
  split.
  - intros Ho. unfold CustomerSerializer_create, atomic,
      CustomerSerializer_create_body. rewrite Ho. by destruct w.
  - intros od u w1 Ho Hn Hu. unfold CustomerSerializer_create, atomic,
      CustomerSerializer_create_body. rewrite Ho.
    unfold mbind, M_bind. rewrite Hu, Hn. simpl. eauto.
Qed.

(** ** Registration needs valid defaults *)

Lemma is_valid_passes data validated :
  UserPreferenceSerializer_is_valid env data = Ok validated →
  validate env validated = Ok validated.
Proof.
  unfold UserPreferenceSerializer_is_valid.
  destruct (UserPreferenceSerializer_to_internal_value data); [|discriminate].
  intros H. pose proof (validate_ok env _ _ H) as ->. done.
Qed.

Lemma create_default_preference_valid user lit v w p w' :
  create_default_preference env user (lit, v) w = (Ok p, w') →
  (∃ symbols, _currency_symbols env = Ok symbols) ∧ v ∈ enumeration env lit.
Proof.
  intros H. unfold create_default_preference in H. simpl in H.
  apply bind_ok in H as (validated & w1 & Hv & _).
  apply lift_run in Hv as [Hv _]. symmetry in Hv.
  pose proof (is_valid_passes _ _ Hv) as Hpass.
  eapply is_valid_default in Hv as [Hn Hp]; [| by simplify_map_eq ..].
  destruct (_currency_symbols env) as [symbols|e] eqn:E.
  - split; [by exists symbols|].
    rewrite (validate_interned env validated lit symbols E Hn), Hp in Hpass.
    simpl in Hpass. unfold dict_get in Hpass.
    rewrite lookup_singleton_eq in Hpass. simpl in Hpass.
    destruct (bool_decide _) eqn:B; [|discriminate].
    by apply bool_decide_eq_true in B.
  - rewrite (validate_symbols_raise env validated e E) in Hpass.
    by destruct (_validate_locale env validated).
Qed.

(** X17: a registration can only succeed when [_currency_symbols] returns
    and the three defaults of the settings are valid: the default currency
    is one of the currency symbols, the default time zone one of the time
    zones and the default locale one of the locale aliases.  (Here the names
    are the constants themselves, so the checks do run.) *)
Theorem _create_user_needs_valid_defaults username email password w u w' :
  _create_user env username email password w = (Ok u, w') →
  (∃ symbols, _currency_symbols env = Ok symbols
              ∧ KOKU_DEFAULT_CURRENCY env ∈ symbols)
  ∧ KOKU_DEFAULT_TIMEZONE env ∈ all_timezones env
  ∧ KOKU_DEFAULT_LOCALE env ∈ locale_alias_values env.
Proof.
  intros H. unfold _create_user in H.
  apply bind_ok in H as (raw & w1 & _ & H).
  apply bind_ok in H as (user & w2 & _ & H).
  apply bind_ok in H as (ps & w3 & Hps & _).
  unfold _create_default_preferences, defaults in Hps. simpl in Hps.
  apply bind_ok in Hps as (pc & wa & H1 & Hps).
  apply bind_ok in Hps as (ps1 & wz & Hps & _).
  apply bind_ok in Hps as (pt & wb & H2 & Hps).
  apply bind_ok in Hps as (ps2 & wy & Hps & _).
  apply bind_ok in Hps as (pl & wc & H3 & _).
  apply create_default_preference_valid in H1 as [(symbols & Hs) H1].
  apply create_default_preference_valid in H2 as [_ H2].
  apply create_default_preference_valid in H3 as [_ H3].
  split; [|done]. exists symbols. split; [done|].
  unfold enumeration in H1. by rewrite Hs in H1.
Qed.

(** ** Field validation of users *)

Lemma char_field_value required allow_null validators raw v :
  char_field required allow_null validators raw = Value v →
  (v = VNone ∧ raw = Some VNone ∧ allow_null = true)
  ∨ ∃ s, v = VStr s ∧ chars s ≠ "" ∧ PyStr.strip (chars s) = chars s
         ∧ validators (chars s) = [].
Proof.
  unfold char_field.
  destruct raw as [[| |z|s| |]|]; try discriminate.
  - destruct allow_null; [|discriminate]. intros [= <-]. by left.
  - destruct (decide _) as [|Hne]; [discriminate|].
    destruct (validators _) eqn:E; [|discriminate]. intros [= <-].
    right. eexists. repeat split; try done.
    by rewrite chars_strip_obj, strip_idemp.
  - destruct (decide _) as [|Hne]; [discriminate|].
    destruct (validators _) eqn:E; [|discriminate]. intros [= <-].
    right. eexists. repeat split; try done.
    by rewrite chars_strip_obj, strip_idemp.
  - by destruct required.
Qed.

Lemma char_field_weaken required allow_null validators validators' raw v :
  (∀ s, validators s = [] → validators' s = []) →
  char_field required allow_null validators raw = Value v →
  char_field required allow_null validators' raw = Value v.
Proof.
  intros Hw. unfold char_field.
  destruct raw as [[| |z|s| |]|]; try done;
    (destruct (decide _); [done|]);
    (destruct (validators _) eqn:E; [|done]); by rewrite (Hw _ E).
Qed.

Lemma char_field_skipped required allow_null validators raw :
  char_field required allow_null validators raw = Skipped →
  raw = None ∧ required = false.
Proof.
  unfold char_field.
  destruct raw as [[| |z|s| |]|]; try done.
  - by destruct allow_null.
  - destruct (decide _); [done|]. by destruct (validators _).
  - destruct (decide _); [done|]. by destruct (validators _).
  - by destruct required.
Qed.

Lemma char_field_no_empty_errors required allow_null validators raw codes :
  char_field required allow_null validators raw = Errors codes → codes ≠ [].
Proof.
  unfold char_field.
  destruct raw as [[| |z|s| |]|]; try (by intros [= <-]).
  - destruct allow_null; [done|]. by intros [= <-].
  - destruct (decide _); [by intros [= <-]|].
    destruct (validators _); [done|]. by intros [= <-].
  - destruct (decide _); [by intros [= <-]|].
    destruct (validators _); [done|]. by intros [= <-].
  - destruct required; [|done]. by intros [= <-].
Qed.

Lemma max_length_nil n s : max_length n s = [] → String.length s ≤ n.
Proof. unfold max_length. by destruct (decide _). Qed.

Lemma max_length_exceeded n s : n < String.length s → max_length n s ≠ [].
Proof. unfold max_length. intros H. rewrite decide_False by lia. done. Qed.

Lemma app_not_nil_r {A} (l k : list A) : k ≠ [] → l ++ k ≠ [].
Proof. by destruct l, k. Qed.

Lemma char_field_errors required allow_null validators raw :
  (raw = None ∧ required = true)
  ∨ (raw = Some VNone ∧ allow_null = false)
  ∨ (∃ s, raw = Some (VStr s)
          ∧ (PyStr.strip (chars s) = ""
             ∨ validators (PyStr.strip (chars s)) ≠ [])) →
  ∃ codes, codes ≠ []
           ∧ char_field required allow_null validators raw = Errors codes.
Proof.
  intros [[-> ->]|[[-> ->]|(s & -> & H)]].
  - by exists ["required"].
  - by exists ["null"].
  - unfold char_field. rewrite chars_strip_obj.
    destruct (decide _); [by exists ["blank"]|].
    destruct H as [H|H]; [done|].
    destruct (validators _) as [|c codes]; [done|]. by exists (c :: codes).
Qed.

(** X18: data for a new user that lack the address or the user name, or
    hold a null, blank or overlong (more than 150 characters) address, or a
    null or overlong (more than 128 characters) password, are refused by
    [UserSerializer] with a validation error before anything is created:
    the world is as it was. *)
Theorem UserSerializer_save_refuses data w :
  defective_user_data data →
  ∃ d, UserSerializer_save env data w = (Raise (ValidationError d), w).
Proof.
  intros Hdef.
  assert (∃ d, UserSerializer_to_internal_value env (database w) data
               = Raise (ValidationError d)) as (d & E).
  { unfold UserSerializer_to_internal_value, UserSerializer_email.
    apply finish_raises.
    pose proof (char_field_errors true false
      (λ s, email_syntax env s ++ unique_email (database w) s
            ++ max_length 150 s) (data !! "email")) as Hmail.
    pose proof (char_field_errors true false
      (λ s, username_syntax env s ++ unique_username (database w) s
            ++ max_length 150 s) (data !! "username")) as Hname.
    pose proof (char_field_errors false false (max_length 128)
      (data !! "password")) as Hpass.
    destruct Hdef as [H|[H|[(s & H & Hs)|[H|[H|(s & H & Hs)]]]]].
    - destruct Hmail as (codes & Hne & ->); [by left|].
      by apply collect_keeps_errors, collect_errors.
    - destruct Hmail as (codes & Hne & ->); [by right; left|].
      by apply collect_keeps_errors, collect_errors.
    - destruct Hmail as (codes & Hne & ->).
      { right; right. exists s. split; [done|].
        destruct Hs as [Hs|Hs]; [by left|right].
        by apply app_not_nil_r, app_not_nil_r, max_length_exceeded. }
      by apply collect_keeps_errors, collect_errors.
    - destruct Hname as (codes & Hne & ->); [by left|].
      by apply collect_keeps_errors, collect_keeps_errors, collect_errors.
    - destruct Hpass as (codes & Hne & ->); [by right; left|].
      by apply collect_errors.
    - destruct Hpass as (codes & Hne & ->).
      { right; right. exists s. split; [done|]. right.
        by apply max_length_exceeded. }
      by apply collect_errors. }
  exists d. unfold UserSerializer_save, mbind, M_bind, query, lift. simpl.
  by rewrite E.
Qed.

(** X19: what the validated data of [UserSerializer] guarantee to
    [create]: a user name and an address, each non-empty, stripped and of at
    most 150 characters; the user name accepted by the user name validator
    and carried by no stored user; and a password only if the data held
    one, then non-empty, stripped and of at most 128 characters. *)
Theorem UserSerializer_validated_data db data validated :
  UserSerializer_to_internal_value env db data = Ok validated →
  (∃ name, ud_username (to_user_data validated) = Some name
           ∧ clean_string 150 name
           ∧ username_validator env name = true
           ∧ name ∉ user_username <$> users db)
  ∧ (∃ mail, ud_email (to_user_data validated) = Some mail
             ∧ clean_string 150 mail)
  ∧ match ud_password (to_user_data validated) with
    | Some p => clean_string 128 p ∧ is_Some (data !! "password")
    | None => data !! "password" = None
    end.
Proof.
  unfold UserSerializer_to_internal_value, UserSerializer_email.
  intros [Herr ->]%finish_ok.
  apply collect_ok in Herr as [Herr Hpass].
  apply collect_ok in Herr as [Herr Hmail].
  apply collect_ok in Herr as [_ Hname].
  pose proof (char_field_required
    (λ s, username_syntax env s ++ unique_username db s ++ max_length 150 s)
    (data !! "username")) as Hn.
  pose proof (char_field_required
    (λ s, email_syntax env s ++ unique_email db s ++ max_length 150 s)
    (data !! "email")) as Hm.
  destruct (char_field true false _ (data !! "username")) as [|vn|cn] eqn:En;
    [done| |by subst].
  destruct (char_field true false _ (data !! "email")) as [|vm|cm] eqn:Em;
    [done| |by subst].
  apply char_field_value in En as [(_ & _ & [=])|(sn & -> & Hne & Hst & Hv)].
  apply char_field_value in Em as [(_ & _ & [=])|(sm & -> & Hne' & Hst' & Hv')].
  apply app_eq_nil in Hv as [Hsyn [Huniq Hlen%max_length_nil]%app_eq_nil].
  apply app_eq_nil in Hv' as [_ [_ Hlen'%max_length_nil]%app_eq_nil].
  destruct (char_field false false (max_length 128) (data !! "password"))
    as [|vp|cp] eqn:Ep; simpl in *.
  - apply char_field_skipped in Ep as [Ep _].
    unfold to_user_data. simplify_map_eq. split; [|split; [|done]].
    + exists (chars sn). repeat split; try done.
      * unfold username_syntax in Hsyn. by destruct (username_validator _ _).
      * unfold unique_username in Huniq. by destruct (decide _).
    + exists (chars sm). by repeat split.
  - assert (is_Some (data !! "password")) as Hsome.
    { destruct (data !! "password"); [done|discriminate Ep]. }
    apply char_field_value in Ep
      as [(_ & _ & [=])|(sp & -> & Hnp & Hsp & Hlp%max_length_nil)].
    unfold to_user_data. simplify_map_eq. split; [|split; [|by repeat split]].
    + exists (chars sn). repeat split; try done.
      * unfold username_syntax in Hsyn. by destruct (username_validator _ _).
      * unfold unique_username in Huniq. by destruct (decide _).
    + exists (chars sm). by repeat split.
  - by apply char_field_no_empty_errors in Ep.
Qed.

(** X20: [NestedUserSerializer] accepts whatever [UserSerializer] accepts,
    with the same user name and address: it differs by the checks it
    leaves out. *)
Theorem NestedUserSerializer_accepts_more db data validated :
  UserSerializer_to_internal_value env db data = Ok validated →
  ∃ validated',
    NestedUserSerializer_to_internal_value env data = Ok validated'
    ∧ validated' !! "username" = validated !! "username"
    ∧ validated' !! "email" = validated !! "email".
Proof.
  unfold UserSerializer_to_internal_value, UserSerializer_email,
    NestedUserSerializer_to_internal_value, NestedUserSerializer_email.
  intros [Herr ->]%finish_ok.
  apply collect_ok in Herr as [Herr Hpass].
  apply collect_ok in Herr as [Herr Hmail].
  apply collect_ok in Herr as [_ Hname].
  pose proof (char_field_required
    (λ s, username_syntax env s ++ unique_username db s ++ max_length 150 s)
    (data !! "username")) as Hn.
  pose proof (char_field_required
    (λ s, email_syntax env s ++ unique_email db s ++ max_length 150 s)
    (data !! "email")) as Hm.
  destruct (char_field true false _ (data !! "username")) as [|vn|cn] eqn:En;
    [done| |by subst].
  destruct (char_field true false _ (data !! "email")) as [|vm|cm] eqn:Em;
    [done| |by subst].
  apply (char_field_weaken _ _ _
           (λ s, username_syntax env s ++ max_length 150 s)) in En.
  2:{ intros s [-> [_ ->]%app_eq_nil]%app_eq_nil. done. }
  apply (char_field_weaken _ _ _
           (λ s, email_syntax env s ++ max_length 150 s)) in Em.
  2:{ intros s [-> [_ ->]%app_eq_nil]%app_eq_nil. done. }
  rewrite En, Em. simpl. eexists. split; [reflexivity|].
  destruct (char_field false false _ (data !! "password")); simpl;
    by simplify_map_eq.
Qed.

Lemma char_field_given validators v vp :
  char_field false false validators (Some v) = Value vp →
  ∃ s, vp = VStr s ∧ field_string v = Some (chars s)
       ∧ chars s ≠ "" ∧ validators (chars s) = [].
Proof.
  unfold char_field.
  destruct v as [| |z|s| |]; try discriminate;
    (destruct (decide _) as [|Hne]; [discriminate|]);
    (destruct (validators _) eqn:E; [|discriminate]); intros [= <-];
    eexists; (split; [reflexivity|]); simpl;
    (split; [by rewrite chars_strip_obj|done]).
Qed.

(** The password in the validated data of [UserSerializer]: none when the
    data hold none, otherwise the one given, as the field reads it. *)
Lemma validated_password db data validated :
  UserSerializer_to_internal_value env db data = Ok validated →
  match data !! "password" with
  | None => ud_password (to_user_data validated) = None
  | Some v =>
      ∃ p, field_string v = Some p ∧ clean_string 128 p
           ∧ ud_password (to_user_data validated) = Some p
  end.
Proof.
  unfold UserSerializer_to_internal_value.
  intros [Herr ->]%finish_ok.
  apply collect_ok in Herr as [_ Hpass].
  destruct (char_field false false (max_length 128) (data !! "password"))
    as [|vp|cp] eqn:Ep.
  - apply char_field_skipped in Ep as [Ep _]. rewrite Ep.
    unfold to_user_data.
    destruct (char_field true false _ (data !! "username"));
      destruct (UserSerializer_email _ _ _); simpl; by simplify_map_eq.
  - destruct (data !! "password") as [v|]; [|discriminate Ep].
    apply char_field_given in Ep
      as (sp & -> & Hv & Hne & Hlen%max_length_nil).
    exists (chars sp). split; [done|]. split.
    + split; [done|]. split; [|done].
      destruct v as [| |z|s| |]; try discriminate;
        injection Hv as <-; apply strip_idemp.
    + unfold to_user_data. simpl. by simplify_map_eq.
  - by apply char_field_no_empty_errors in Ep.
Qed.

(** X21: through [UserSerializer], a temporary password is generated exactly
    when the data hold no password: a password that is given is the one
    stored (stripped, hashed), and a blank one is refused with a validation
    error, before anything is created, rather than replaced. *)
Theorem UserSerializer_save_password data w :
  (∀ u w',
     UserSerializer_save env data w = (Ok u, w') →
     match data !! "password" with
     | None =>
         ∃ raw, temp_password raw
                ∧ user_password u = make_password env raw
     | Some v =>
         ∃ raw, field_string v = Some raw
                ∧ clean_string 128 raw
                ∧ user_password u = make_password env raw
     end)
  ∧ (∀ s, data !! "password" = Some (VStr s) →
          PyStr.strip (chars s) = "" →
          ∃ d, UserSerializer_save env data w
               = (Raise (ValidationError d), w)).
Proof.
  split.
  - intros u w'.
    unfold UserSerializer_save, mbind, M_bind, query, lift. simpl.
    destruct (UserSerializer_to_internal_value _ _ _) as [validated|] eqn:E;
      [|discriminate].
    apply validated_password in E as Hp.
    intros H. apply atomic_ok, _create_user_ok in H
      as (raw & _ & _ & _ & _ & _ & _ & Hc & Hraw & _).
    unfold chosen_for in Hc.
    destruct (data !! "password") as [v|].
    + destruct Hp as (p & Hv & Hclean & Hp). rewrite Hp in Hc.
      destruct (decide (p = "")) as [->|]; [by destruct Hclean|].
      subst raw. by exists p.
    + rewrite Hp in Hc. by exists raw.
  - intros s Hs Hblank.
    assert (∃ d, UserSerializer_to_internal_value env (database w) data
                 = Raise (ValidationError d)) as (d & E).
    { unfold UserSerializer_to_internal_value. apply finish_raises.
      destruct (char_field_errors false false (max_length 128)
                  (data !! "password")) as (codes & Hne & ->).
      { right; right. exists s. split; [done|by left]. }
      by apply collect_errors. }
    exists d. unfold UserSerializer_save, mbind, M_bind, query, lift. simpl.
    by rewrite E.
Qed.

(** ** The group of a new customer *)

Lemma grows_bind {A B} (m : M A) (f : A → M B) :
  grows m → (∀ a, grows (f a)) → grows (m ≫= f).
Proof.
  intros Hm Hf w r w'. unfold mbind, M_bind.
  destruct (m w) as [[a|e] w1] eqn:E.
  - intros H. etrans; [by eapply Hm|by eapply Hf].
  - intros [= <- <-]. by eapply Hm.
Qed.

Lemma grows_atomic {A} (m : M A) : grows m → grows (atomic m).
Proof.
  intros Hm w r w'. unfold atomic. destruct (m w) as [[a|e] w1] eqn:E.
  - intros [= <- <-]. by eapply Hm.
  - intros [= <- <-]. simpl. by eapply Hm.
Qed.

Lemma grows_ret {A} (a : A) : grows (mret a).
Proof. by intros w r w' [= <- <-]. Qed.

Lemma grows_raise {A} e : grows (raise e : M A).
Proof. by intros w r w' [= <- <-]. Qed.

Lemma grows_lift {A} (x : result A) : grows (lift x).
Proof. by intros w r w' [= <- <-]. Qed.

Lemma grows_query {A} (f : list row → A) : grows (query f).
Proof. by intros w r w' [= <- <-]. Qed.

Lemma grows_entropy : grows (entropy env).
Proof. by intros w r w' [= <- <-]. Qed.

Lemma grows_nextval : grows nextval.
Proof. intros w r w' [= <- <-]. simpl. lia. Qed.

Lemma grows_insert r : grows (insert env r).
Proof.
  intros w x w'. unfold insert.
  destruct (integrity _ _ _); by intros [= <- <-].
Qed.

Lemma grows_uuid4 : grows (uuid4 env).
Proof.
  apply grows_bind; [apply grows_entropy|]. intros. apply grows_ret.
Qed.

Lemma grows_mail username email uuid token :
  grows (new_user_login_email env username email uuid token).
Proof.
  intros w r w'. unfold new_user_login_email.
  destruct (mail_delivers _ _); by intros [= <- <-].
Qed.

Lemma grows_choose_password password : grows (choose_password env password).
Proof.
  assert (grows (_gen_temp_password env)) as Hgen.
  { unfold _gen_temp_password. generalize 10.
    induction n as [|n IH]; simpl; [apply grows_ret|].
    apply grows_bind.
    - apply grows_bind; [apply grows_entropy|]. intros. apply grows_ret.
    - intros c. apply grows_bind; [exact IH|]. intros. apply grows_ret. }
  unfold choose_password. destruct password as [p|]; [|done].
  destruct (decide _); [done|apply grows_ret].
Qed.

Lemma grows_get_user name : grows (get_user_by_username name).
Proof.
  apply grows_bind; [apply grows_query|].
  intros [|u [|u' l]]; [apply grows_raise|apply grows_ret|apply grows_raise].
Qed.

Create HintDb grows.
#[local] Hint Resolve grows_ret grows_raise grows_lift grows_query
  grows_entropy grows_nextval grows_insert grows_uuid4 grows_mail
  grows_choose_password grows_get_user : grows.

Lemma grows__create_user username email password :
  grows (_create_user env username email password).
Proof.
  unfold _create_user.
  apply grows_bind; [auto with grows|]. intros user_pass.
  apply grows_bind.
  { unfold create_user. destruct username as [[|c name]|]; auto with grows.
    repeat (apply grows_bind; [auto with grows|intros ?]).
    auto with grows. }
  intros user. apply grows_bind.
  { unfold _create_default_preferences. generalize (defaults env).
    induction l as [|[lit v] l IH]; simpl; [auto with grows|].
    apply grows_bind; [|intros ?; apply grows_bind;
                                   [exact IH|auto with grows]].
    unfold create_default_preference.
    apply grows_bind; [auto with grows|]. intros validated.
    unfold UserPreferenceSerializer_create. apply grows_atomic.
    apply grows_bind; [auto with grows|]. intros u.
    apply grows_bind; [auto with grows|]. intros uuid.
    apply grows_bind.
    { destruct (validated !! "name") as [[| | |s| |]|]; auto with grows;
        (apply grows_bind; auto with grows). }
    intros name. repeat (apply grows_bind; [auto with grows|intros ?]).
    auto with grows. }
  intros _. apply grows_bind.
  { unfold new_reset_token.
    repeat (apply grows_bind; [auto with grows|intros ?]). auto with grows. }
  intros t. apply grows_bind; auto with grows.
Qed.

Lemma filter_none {A} (P : A → Prop) `{!∀ x, Decision (P x)} (l : list A) :
  Forall (λ x, ¬ P x) l → filter P l = [].
Proof.
  induction 1 as [|x l Hx _ IH]; [done|].
  by rewrite filter_cons_False.
Qed.

Lemma customers_write_customer c (db : list row) :
  (∀ c', c' ∈ customers db → customer_id c' = customer_id c → c' = c) →
  customers (write_customer c <$> db) = customers db.
Proof.
  unfold customers. induction db as [|r db IH]; [done|]. intros H. csimpl.
  destruct r as [| | |c'|]; simpl; try (apply IH; intros; apply H; by csimpl).
  - destruct (decide (customer_id c' = customer_id c)) as [E|E].
    + rewrite (H c'); [|csimpl; apply list_elem_of_here|done].
      f_equal. apply IH. intros c'' Hin. apply H. csimpl.
      by apply list_elem_of_further.
    + f_equal. apply IH. intros c'' Hin. apply H. csimpl.
      by apply list_elem_of_further.
Qed.

Lemma Customer_objects_create_key name owner_id schema_name w c w' :
  Customer_objects_create env name owner_id schema_name w = (Ok c, w') →
  customer_id c = S (sequence w)
  ∧ sequence w' = S (sequence w)
  ∧ database w' = database w ++ [RCustomer c].
Proof.
  unfold Customer_objects_create, mbind, M_bind, uuid4, entropy, nextval,
    insert, mret, M_ret. simpl.
  destruct (integrity _ _ _); [|discriminate]. by intros [= <- <-].
Qed.

Lemma grows_CustomerSerializer_create data :
  grows (CustomerSerializer_create env data).
Proof.
  unfold CustomerSerializer_create, CustomerSerializer_create_body.
  apply grows_atomic.
  destruct (cd_owner data) as [od|]; [|auto with grows].
  apply grows_bind; [apply grows__create_user|]. intros owner.
  destruct (cd_name data) as [name|]; [|auto with grows].
  apply grows_bind.
  { unfold Customer_objects_create.
    repeat (apply grows_bind; [auto with grows|intros ?]). auto with grows. }
  intros c. apply grows_bind.
  { unfold user_set_add. apply grows_bind; [auto with grows|].
    intros [|]; auto with grows. }
  intros _. apply grows_bind; [|auto with grows].
  by intros w r w' [= <- <-].
Qed.

(** The customers after a successful [CustomerSerializer.create]. *)
Lemma CustomerSerializer_create_customers data w c w' :
  customer_keys_issued w →
  CustomerSerializer_create env data w = (Ok c, w') →
  customers (database w') = customers (database w) ++ [c]
  ∧ customer_id c ≤ sequence w'.
Proof.
  intros Hkeys H. apply atomic_ok in H.
  unfold CustomerSerializer_create_body in H.
  destruct (cd_owner data) as [od|]; [|discriminate].
  apply bind_ok in H as (owner & w1 & Hu & H).
  destruct (cd_name data) as [name|]; [|discriminate].
  apply bind_ok in H as (c' & w2 & Hc & H).
  apply Customer_objects_create_key in Hc as (Hid & Hs2 & D2).
  apply bind_ok in H as (? & w3 & Ha & H).
  apply bind_ok in H as (? & w4 & Hs & H). returned H.
  unfold Customer_save in Hs. injection Hs as _ <-. simpl in *.
  pose proof (grows__create_user _ _ _ _ _ _ Hu) as Hseq.
  pose proof (_create_user_ok env _ _ _ _ _ _ Hu)
    as (_ & _ & pc & pt & pl & t & _ & _ & _ & _ & _ & D1 & _).
  assert (customers (database w3) = customers (database w) ++ [c]
          ∧ sequence w3 = sequence w2) as [Hc3 Hs3].
  { unfold user_set_add, mbind, M_bind, query in Ha. simpl in Ha.
    destruct (bool_decide _).
    - injection Ha as _ <-. rewrite D2, D1. unfold customers.
      rewrite !omap_app. simpl. by rewrite app_nil_r.
    - unfold insert in Ha. destruct (integrity _ _ _); [|discriminate].
      injection Ha as _ <-. simpl. rewrite D2, D1. unfold customers.
      rewrite !omap_app. simpl. by rewrite !app_nil_r. }
  split; [|lia].
  rewrite customers_write_customer; [done|].
  rewrite Hc3. intros c0 [Hc0|Hc0]%elem_of_app.
  - apply Hkeys in Hc0. lia.
  - by apply list_elem_of_singleton in Hc0 as ->.
Qed.

(** X22: the group of a new customer is found by its name and holds the
    owner.  After a successful [CustomerSerializer.create] in a world where
    the keys of the stored customers come from the sequence and none of them
    has the name of the new one, [get_authentication_group_for_customer]
    returns the new customer, and the users [get_users_for_group] returns
    for it include the owner. *)
Theorem group_of_new_customer data name w c w' :
  customer_keys_issued w →
  cd_name data = Some name →
  (∀ c0, c0 ∈ customers (database w) → customer_name c0 ≠ name) →
  CustomerSerializer_create env data w = (Ok c, w') →
  get_authentication_group_for_customer name w' = (Ok c, w')
  ∧ ∃ group_users owner,
      get_users_for_group c w' = (Ok group_users, w')
      ∧ owner ∈ group_users
      ∧ user_id owner = customer_owner_id c.
Proof.
  intros Hkeys Hname Hfresh H.
  pose proof (CustomerSerializer_create_customers _ _ _ _ Hkeys H) as [Hcs _].
  apply atomic_ok, CustomerSerializer_create_body_ok in H
    as (od & name' & owner & w1 & _ & Hn & _ & Hcn & Hco & _ & Hin
        & _ & Hmem & _).
  rewrite Hname in Hn. injection Hn as <-.
  split.
  - unfold get_authentication_group_for_customer, mbind, M_bind, query.
    simpl. rewrite Hcs, filter_app, filter_none.
    + simpl. rewrite filter_cons_True by done. done.
    + apply Forall_forall. intros c0 Hc0. by apply Hfresh.
  - eexists _, owner. split; [reflexivity|]. split; [|done].
    apply list_elem_of_filter. split.
    + by apply members_elem.
    + by apply users_elem.
Qed.

(** X23: [CustomerSerializer.create] keeps the keys of the stored customers
    within the sequence, whether it returns or raises: the premise of X22
    holds again for the next customer. *)
Theorem customer_keys_issued_kept data w r w' :
  customer_keys_issued w →
  CustomerSerializer_create env data w = (r, w') →
  customer_keys_issued w'.
Proof.
  intros Hkeys H. pose proof (grows_CustomerSerializer_create _ _ _ _ H) as Hs.
  destruct r as [c|e]; intros c0 Hc0.
  - destruct (CustomerSerializer_create_customers _ _ _ _ Hkeys H) as [Hcs Hid].
    rewrite Hcs in Hc0. apply elem_of_app in Hc0 as [Hc0|Hc0].
    + apply Hkeys in Hc0. lia.
    + by apply list_elem_of_singleton in Hc0 as ->.
  - apply atomic_raise in H. rewrite H in Hc0. apply Hkeys in Hc0. lia.
Qed.

End Further.

(** ** The further properties at concrete inputs *)

Lemma _currency_symbols_spec_witness :
  (∃ symbols, _currency_symbols Demo.env = Ok symbols
              ∧ "EUR" ∈ symbols ∧ PyStr.strip "EUR" = "EUR")
  ∧ _currency_symbols locale_missing = Raise LocaleError.
Proof.
  split.
  - pose proof (_currency_symbols_spec Demo.env) as H.
    destruct (_currency_symbols Demo.env) as [symbols|e] eqn:E.
    + exists symbols. destruct H as (_ & Hin & _ & Hstrip).
      assert ("EUR" ∈ symbols) as HEUR.
      { apply Hin. exists "de_DE.ISO8859-1", "EUR ".
        split; [by_computation|]. split; [reflexivity|].
        split; [discriminate|reflexivity]. }
      split; [reflexivity|]. split; [exact HEUR|exact (Hstrip _ HEUR)].
    + vm_compute in E. discriminate E.
  - pose proof (_currency_symbols_spec locale_missing) as H.
    destruct (_currency_symbols locale_missing) as [symbols|e] eqn:E.
    + vm_compute in E. discriminate E.
    + destruct H as [[Hnone _]|(current & _ & _ & ->)].
      * vm_compute in Hnone. discriminate Hnone.
      * reflexivity.
Defined.

Lemma schema_name_empty_iff_witness :
  PyStr.str_forall schema_class "_ ._" = true
  ∧ _create_schema_name "_ ._" = "".
Proof.
  split; [reflexivity|].
  exact (proj2 (schema_name_empty_iff "_ ._") eq_refl).
Defined.

Lemma validate_constant_name_witness :
  let d : gmap string pyval := {[ "currency" := VStr (Allocated "EUR") ]} in
  currency_data d !! "name" = Some (VStr (Interned LitCurrency))
  ∧ currency_data d !! "preference" = Some (VDict d)
  ∧ validate Demo.env (currency_data d) = Ok (currency_data d)
  ∧ validate locale_missing (currency_data d) = Raise LocaleError.
Proof.
  split; [reflexivity|]. split; [reflexivity|]. split.
  - destruct (validate_constant_name Demo.env
                (currency_data {[ "currency" := VStr (Allocated "EUR") ]})
                LitCurrency {[ "currency" := VStr (Allocated "EUR") ]}
                eq_refl eq_refl) as [Hreturns _].
    destruct (_currency_symbols Demo.env) as [symbols|e] eqn:E.
    + destruct (Hreturns symbols eq_refl) as [Hiff _].
      apply Hiff. exists (Allocated "EUR"). split; [reflexivity|].
      simpl. by_computation.
    + vm_compute in E. discriminate E.
  - destruct (validate_constant_name locale_missing
                (currency_data {[ "currency" := VStr (Allocated "EUR") ]})
                LitCurrency {[ "currency" := VStr (Allocated "EUR") ]}
                eq_refl eq_refl) as [_ Hraises].
    rewrite (Hraises LocaleError); [reflexivity|].
    vm_compute; reflexivity.
Defined.

Lemma validate_missing_entries_witness :
  currency_data ∅ !! "name" = Some (VStr (Interned LitCurrency))
  ∧ (∃ symbols, _currency_symbols Demo.env = Ok symbols)
  ∧ validate Demo.env (currency_data ∅)
    = Raise (ValidationError (Invalid "currency" VNone)).
Proof.
  assert (∃ symbols, _currency_symbols Demo.env = Ok symbols) as Hs.
  { eexists. vm_compute. reflexivity. }
  split; [reflexivity|]. split; [exact Hs|].
  destruct (validate_missing_entries Demo.env (currency_data ∅) LitCurrency
              eq_refl (or_intror Hs)) as [Hdict _].
  exact (Hdict ∅ eq_refl eq_refl).
Defined.

Lemma UserPreferenceSerializer_create_spec_witness :
  ∃ e w',
    UserPreferenceSerializer_create Demo.env bob_in_context ∅ with_alice
    = (Raise e, w')
    ∧ database w' = database with_alice ∧ e = DoesNotExist.
Proof.
  eexists _, _. split; [vm_compute; reflexivity|].
  pose proof (UserPreferenceSerializer_create_spec Demo.env bob_in_context ∅
                with_alice) as H.
  destruct (UserPreferenceSerializer_create Demo.env bob_in_context ∅
              with_alice) as [[p|e] w'] eqn:E.
  - vm_compute in E. discriminate E.
  - vm_compute in E. injection E as <- <-. destruct H as [Hd He].
    split; [vm_compute; reflexivity|reflexivity].
Defined.

Lemma UserPreferenceSerializer_update_ok_witness :
  ∃ p w',
    UserPreferenceSerializer_update Demo.env bob_in_context alice_preference
      {[ "description" := VNone ]} with_both = (Ok p, w')
    ∧ pref_id p = pref_id alice_preference
    ∧ pref_user_id alice_preference = 1
    ∧ pref_user_id p = 6
    ∧ pref_description p = None
    ∧ pref_name p = "currency".
Proof.
  eexists _, _. split; [vm_compute; reflexivity|].
  edestruct (UserPreferenceSerializer_update_ok Demo.env bob_in_context
               alice_preference {[ "description" := VNone ]} with_both)
    as (Hid & _ & _ & Hname & _);
    [vm_compute; reflexivity|].
  split; [exact Hid|]. split; [reflexivity|]. split; [reflexivity|].
  split; [reflexivity|]. exact (Hname eq_refl).
Defined.

Lemma UserPreferenceSerializer_update_unknown_user_witness :
  filter (λ u, user_username u = "bob") (users (database with_alice)) = []
  ∧ UserPreferenceSerializer_update Demo.env bob_in_context alice_preference
      ∅ with_alice = (Raise DoesNotExist, with_alice).
Proof.
  assert (filter (λ u, user_username u = user_username bob_in_context)
                 (users (database with_alice)) = []) as H
    by (vm_compute; reflexivity).
  split; [exact H|].
  exact (UserPreferenceSerializer_update_unknown_user Demo.env bob_in_context
           alice_preference ∅ with_alice H).
Defined.

Lemma _create_user_appends_witness :
  ∃ e w',
    _create_user mail_down (Some "bob") (Some "bob@example.com") None
      with_alice = (Raise e, w')
    ∧ database with_alice `prefix_of` database w'.
Proof.
  eexists _, _. split; [vm_compute; reflexivity|].
  eapply (_create_user_appends mail_down (Some "bob")
            (Some "bob@example.com") None with_alice).
  vm_compute; reflexivity.
Defined.

Lemma _create_user_keeps_user_witness :
  ∃ raw w1 u w2 w',
    choose_password mail_down (Some "s3cret") with_alice = (Ok raw, w1)
    ∧ create_user mail_down (Some "bob") (Some "bob@example.com") raw w1
      = (Ok u, w2)
    ∧ _create_user mail_down (Some "bob") (Some "bob@example.com")
        (Some "s3cret") with_alice = (Raise MailError, w')
    ∧ (database with_alice ++ [RUser u]) `prefix_of` database w'.
Proof.
  eexists _, _, _, _, _.
  split; [vm_compute; reflexivity|].
  split; [vm_compute; reflexivity|].
  split; [vm_compute; reflexivity|].
  eapply (_create_user_keeps_user mail_down (Some "bob")
            (Some "bob@example.com") (Some "s3cret") with_alice);
    vm_compute; reflexivity.
Defined.

Lemma CustomerSerializer_create_mail_sent_witness :
  ∃ u w1 w',
    _create_user Demo.env (Some "alice") (Some "alice@Example.COM") None
      with_big_corp = (Ok u, w1)
    ∧ CustomerSerializer_create Demo.env big_corp_again with_big_corp
      = (Raise IntegrityError, w')
    ∧ database w' = database with_big_corp
    ∧ length (outbox w') = S (length (outbox with_big_corp)).
Proof.
  eexists _, _, _.
  split; [vm_compute; reflexivity|].
  split; [vm_compute; reflexivity|].
  edestruct (CustomerSerializer_create_mail_sent Demo.env big_corp_again
               Demo.alice with_big_corp) as (D & t & O);
    [reflexivity|vm_compute; reflexivity|vm_compute; reflexivity|].
  split; [exact D|]. rewrite O, length_app. simpl. lia.
Defined.

Lemma CustomerSerializer_create_missing_keys_witness :
  ∃ u w1 w',
    _create_user Demo.env (Some "bob") (Some "bob@example.com")
      (Some "s3cret") Demo.empty_world = (Ok u, w1)
    ∧ CustomerSerializer_create Demo.env nameless Demo.empty_world
      = (Raise (KeyError "name"), w')
    ∧ database w' = [] ∧ outbox w' = outbox w1.
Proof.
  eexists _, _, _.
  split; [vm_compute; reflexivity|].
  destruct (CustomerSerializer_create_missing_keys Demo.env nameless
              Demo.empty_world) as [_ Hname].
  edestruct (Hname Demo.bob) as (w' & E & D & O);
    [reflexivity|reflexivity|vm_compute; reflexivity|].
  vm_compute in E. injection E as <-.
  split; [vm_compute; reflexivity|]. split; [exact D|exact O].
Defined.

Lemma _create_user_needs_valid_defaults_witness :
  ∃ u w',
    _create_user Demo.env (Some "alice") (Some "alice@Example.COM") None
      Demo.empty_world = (Ok u, w')
    ∧ (∃ symbols, _currency_symbols Demo.env = Ok symbols ∧ "USD" ∈ symbols)
    ∧ "UTC" ∈ all_timezones Demo.env
    ∧ "en_US.UTF-8" ∈ locale_alias_values Demo.env.
Proof.
  eexists _, _. split; [vm_compute; reflexivity|].
  eapply (_create_user_needs_valid_defaults Demo.env (Some "alice")
            (Some "alice@Example.COM") None Demo.empty_world).
  vm_compute; reflexivity.
Defined.

Lemma UserSerializer_save_refuses_witness :
  defective_user_data no_email_request
  ∧ ∃ d, UserSerializer_save Demo.env no_email_request with_alice
         = (Raise (ValidationError d), with_alice).
Proof.
  assert (defective_user_data no_email_request) as H by (left; reflexivity).
  split; [exact H|].
  exact (UserSerializer_save_refuses Demo.env no_email_request with_alice H).
Defined.

Lemma UserSerializer_validated_data_witness :
  UserSerializer_to_internal_value Demo.env (database with_alice)
    carol_request = Ok carol_validated
  ∧ ∃ mail, ud_email (to_user_data carol_validated) = Some mail
            ∧ clean_string 150 mail.
Proof.
  assert (UserSerializer_to_internal_value Demo.env (database with_alice)
            carol_request = Ok carol_validated) as H
    by (vm_compute; reflexivity).
  split; [exact H|].
  destruct (UserSerializer_validated_data Demo.env (database with_alice)
              carol_request carol_validated H) as (_ & Hmail & _).
  exact Hmail.
Defined.

Lemma NestedUserSerializer_accepts_more_witness :
  UserSerializer_to_internal_value Demo.env (database with_alice)
    carol_request = Ok carol_validated
  ∧ ∃ validated',
      NestedUserSerializer_to_internal_value Demo.env carol_request
      = Ok validated'
      ∧ validated' !! "username" = carol_validated !! "username"
      ∧ validated' !! "email" = carol_validated !! "email".
Proof.
  assert (UserSerializer_to_internal_value Demo.env (database with_alice)
            carol_request = Ok carol_validated) as H
    by (vm_compute; reflexivity).
  split; [exact H|].
  exact (NestedUserSerializer_accepts_more Demo.env (database with_alice)
           carol_request carol_validated H).
Defined.

Lemma UserSerializer_save_password_witness :
  carol_request !! "password" = Some (VStr (Allocated "pass phrase"))
  ∧ ∃ u w',
      UserSerializer_save Demo.env carol_request with_alice = (Ok u, w')
      ∧ user_password u = "pbkdf2$pass phrase"
      ∧ ∃ raw, field_string (VStr (Allocated "pass phrase")) = Some raw
               ∧ clean_string 128 raw
               ∧ user_password u = make_password Demo.env raw.
Proof.
  split; [reflexivity|].
  destruct (UserSerializer_save Demo.env carol_request with_alice)
    as [[u|e] w'] eqn:E.
  - exists u, w'. split; [reflexivity|].
    destruct (UserSerializer_save_password Demo.env carol_request with_alice)
      as [Hgiven _].
    specialize (Hgiven u w' E).
    vm_compute in E. injection E as <- <-.
    split; [reflexivity|]. exact Hgiven.
  - vm_compute in E. discriminate E.
Defined.

Lemma group_of_new_customer_witness :
  ∃ c w',
    CustomerSerializer_create Demo.env big_corp Demo.empty_world = (Ok c, w')
    ∧ get_authentication_group_for_customer "Big_Corp, Inc." w' = (Ok c, w')
    ∧ ∃ group_users owner,
        get_users_for_group c w' = (Ok group_users, w')
        ∧ owner ∈ group_users
        ∧ user_id owner = customer_owner_id c.
Proof.
  eexists _, _. split; [vm_compute; reflexivity|].
  apply (group_of_new_customer Demo.env big_corp "Big_Corp, Inc."
           Demo.empty_world).
  - intros c Hc. by apply elem_of_nil in Hc.
  - reflexivity.
  - intros c Hc. by apply elem_of_nil in Hc.
  - vm_compute; reflexivity.
Defined.

Lemma customer_keys_issued_kept_witness :
  customer_keys_issued Demo.empty_world
  ∧ customer_keys_issued with_big_corp.
Proof.
  assert (customer_keys_issued Demo.empty_world) as H.
  { intros c Hc. by apply elem_of_nil in Hc. }
  split; [exact H|].
  unfold with_big_corp.
  destruct (CustomerSerializer_create Demo.env big_corp Demo.empty_world)
    as [r w'] eqn:E.
  exact (customer_keys_issued_kept Demo.env big_corp Demo.empty_world r w'
           H E).
Defined.
